(** * Streaming-catalogue aggregation: a model of [data_fetcher.py]

    The development embeds [StreamingDataFetcher.build_content_database] and
    [load_or_create_database] as programs of a small state-and-exception
    monad.  The outside world (the two HTTP catalogue services, the progress
    callback, the clock and pandas' CSV reader and writer) is an explicit
    environment; the working directory is a finite map from file names to
    file contents.  [Fetcher] has the functions where the table can be
    built and written; [Fallible] has [build_content_database] where pandas
    or the disk may refuse. *)

From Stdlib Require Import QArith.
From Stdlib Require Import SpecFloat.
From stdpp Require Import base option list strings pretty sorting gmap.

Set Warnings "-register-all".
Local Open Scope string_scope.
Local Open Scope Z_scope.
Local Open Scope list_scope.

(** ** Values decoded from JSON

    [response.json()] yields [None], a [bool], an [int], a [float], a [str],
    a [list] or a [dict].  A [dict] keeps its insertion order; a key is looked
    up from the front.  A [str] is a sequence of one-character strings. *)

Inductive json : Type :=
  | JNull
  | JBool (b : bool)
  | JInt (z : Z)
  | JFloat (f : spec_float)
  | JStr (s : string)
  | JArr (l : list json)
  | JObj (kv : list (string * json)).

(** A row of the table under construction: the [content_info] dict. *)
Definition dict : Type := list (string * json).

(** The exceptions the model distinguishes; all derive from [Exception]. *)
Inductive exn : Type :=
  | TypeError
  | KeyError
  | AttributeError
  | RequestException
  | CallbackException
  | ZeroDivisionError
  | IndexError
  | FileNotFoundError
  | ParserError
  | EmptyDataError
  | IsADirectoryError
  | UnicodeEncodeError.

Inductive outcome (A : Type) : Type :=
  | Returns (a : A)
  | Raises (e : exn).
Arguments Returns {A} a.
Arguments Raises {A} e.

Definition returned {A} (o : outcome A) : bool :=
  match o with Returns _ => true | Raises _ => false end.

(** ** Python's operations on decoded values *)

Fixpoint assoc_get {V} (k : string) (d : list (string * V)) : option V :=
  match d with
  | [] => None
  | (k', v) :: d' => if String.eqb k' k then Some v else assoc_get k d'
  end.

(** [d[k] = v] on a dict: overwrite in place, or append a new key. *)
Fixpoint assoc_set {V} (k : string) (v : V) (d : list (string * V))
  : list (string * V) :=
  match d with
  | [] => [(k, v)]
  | (k', v') :: d' =>
      if String.eqb k' k then (k', v) :: d' else (k', v') :: assoc_set k v d'
  end.

(** [x.get(k, d)]: only a dict has the method. *)
Definition py_get (x : json) (k : string) (d : json) : outcome json :=
  match x with
  | JObj kv => Returns (default d (assoc_get k kv))
  | _ => Raises AttributeError
  end.

(** [x[k]] with a string key [k]: a missing key is a [KeyError]; a list or
    a string wants an integer index, every other value is not subscriptable. *)
Definition py_getitem (x : json) (k : string) : outcome json :=
  match x with
  | JObj kv =>
      match assoc_get k kv with
      | Some v => Returns v
      | None => Raises KeyError
      end
  | _ => Raises TypeError
  end.

Definition chars (s : string) : list json :=
  (fun c => JStr (String c EmptyString)) <$> String.list_ascii_of_string s.

(** What a [for] loop (or a comprehension) draws from a value: the elements
    of a list, the keys of a dict, the characters of a string. *)
Definition py_iter (x : json) : outcome (list json) :=
  match x with
  | JArr l => Returns l
  | JObj kv => Returns ((fun p => JStr p.1) <$> kv)
  | JStr s => Returns (chars s)
  | _ => Raises TypeError
  end.

Definition is_str_eq (k : string) (x : json) : bool :=
  match x with JStr s => String.eqb s k | _ => false end.

(** [k in x] for a string [k]: key of a dict, element of a list, substring
    of a string. *)
Definition py_contains (k : string) (x : json) : outcome bool :=
  match x with
  | JObj kv => Returns (bool_decide (is_Some (assoc_get k kv)))
  | JArr l => Returns (existsb (is_str_eq k) l)
  | JStr s => Returns (bool_decide (is_Some (String.index 0 k s)))
  | _ => Raises TypeError
  end.

Definition float_is_zero (f : spec_float) : bool :=
  match f with S754_zero _ => true | _ => false end.

(** Truth value of [x] in [if x:]. *)
Definition py_truthy (x : json) : bool :=
  match x with
  | JNull => false
  | JBool b => b
  | JInt z => negb (z =? 0)
  | JFloat f => negb (float_is_zero f)
  | JStr s => negb (String.eqb s "")
  | JArr l => match l with [] => false | _ :: _ => true end
  | JObj kv => match kv with [] => false | _ :: _ => true end
  end.

(** [z < f] for an [int] and a [float]: Python compares the exact values. *)
Definition Z_lt_float (z : Z) (f : spec_float) : bool :=
  match f with
  | S754_nan => false
  | S754_infinity negative => negb negative
  | S754_zero _ => z <? 0
  | S754_finite negative m e =>
      let v := if negative then Z.neg m else Z.pos m in
      if 0 <=? e then z <? v * 2 ^ e else z * 2 ^ (- e) <? v
  end.

(** [min(v, max_pages)]: the second argument wins only when it is strictly
    smaller; a [bool] compares as 0 or 1; anything that is not a number has
    no order against an [int]. *)
Definition py_min (v : json) (max_pages : Z) : outcome json :=
  match v with
  | JInt z => Returns (if max_pages <? z then JInt max_pages else JInt z)
  | JBool b => Returns (if max_pages <? Z.b2z b then JInt max_pages else JBool b)
  | JFloat f => Returns (if Z_lt_float max_pages f then JInt max_pages else JFloat f)
  | _ => Raises TypeError
  end.

(** [range(1, total_pages + 1)]: a [float] bound is refused by [range]. *)
Definition py_range_from_1 (total_pages : json) : outcome (list Z) :=
  match total_pages with
  | JInt z => Returns (seqZ 1 z)
  | JBool b => Returns (seqZ 1 (Z.b2z b))
  | _ => Raises TypeError
  end.

(** [str(x)] for the values [py_range_from_1] accepts. *)
Definition py_str (x : json) : string :=
  match x with
  | JInt z => pretty z
  | JBool true => "True"
  | JBool false => "False"
  | JStr s => s
  | _ => "None"
  end.

(** [sep.join(l)]: every element has to be a [str]. *)
Fixpoint py_join (sep : string) (l : list json) : outcome string :=
  match l with
  | [] => Returns ""
  | JStr s :: l' =>
      match l' with
      | [] => Returns s
      | _ :: _ =>
          match py_join sep l' with
          | Returns r => Returns (s +:+ sep +:+ r)
          | Raises e => Raises e
          end
      end
  | _ :: _ => Raises TypeError
  end.

(** ** The outside world *)

(** The four HTTP requests of the fetcher, each with the values its method
    puts into the URL text and the [params] dict; the fetcher does not
    escape them. *)
Inductive request : Type :=
  | Discover (api_key content_type : string) (provider_id : Z)
             (region : string) (page : Z)
  | ExternalIds (api_key content_type : string) (tmdb_id : json)
  | Details (api_key content_type : string) (tmdb_id : json)
  | Omdb (api_key : string) (imdb_id : json).

(** What the program does to the world, in the order it does it. *)
Inductive event : Type :=
  | EGet (r : request)
  | EProgress (message : string) (fraction : Q)
  | ESleep (seconds : Q)
  | EPrint (message : string) (e : exn).

(** A progress callback sees what happened so far and may raise. *)
Definition callback : Type := list event → string → Q → option exn.

Record environment : Type := {
  (** [requests.get(url, params).json()]: a decoded body, or an exception of
      the transport or of the decoder.  The answer may depend on the whole
      history, so that the same request can succeed once and fail later. *)
  http_get : list event → request → outcome json;
  (** [datetime.now().strftime("%Y%m%d_%H%M%S")] *)
  now_strftime : string;
  (** [DataFrame(rows).to_csv(index=False)] as text *)
  to_csv : list dict → string;
  (** [pd.read_csv] on the text of a file *)
  read_csv : string → outcome (list dict);
}.

(** The state a run acts on: the events so far, the files of the working
    directory, and the list object [all_content], which is
    appended to in place and so survives an exception. *)
Record state : Type := {
  trace : list event;
  files : gmap string string;
  all_content : list dict;
}.

(** ** The monad of statements *)

Definition M (A : Type) : Type := state → outcome A * state.

Global Instance M_ret : MRet M := λ A a s, (Returns a, s).

Global Instance M_bind : MBind M := λ A B f m s,
  match m s with
  | (Returns a, s') => f a s'
  | (Raises e, s') => (Raises e, s')
  end.

Definition lift {A} (o : outcome A) : M A := λ s, (o, s).

Definition emit (ev : event) : M unit := λ s,
  (Returns (), {| trace := trace s ++ [ev]; files := files s;
                  all_content := all_content s |}).

(** [try: body except Exception as e: handler(e)] *)
Definition try_except (body : M unit) (handler : exn → M unit) : M unit := λ s,
  match body s with
  | (Returns _, s') => (Returns (), s')
  | (Raises e, s') => handler e s'
  end.

(** [for x in l: body(x)]: the first exception leaves the loop. *)
Fixpoint for_each {A} (l : list A) (body : A → M unit) : M unit :=
  match l with
  | [] => mret ()
  | x :: l' => body x ;; for_each l' body
  end.

(** A loop that also updates a local variable. *)
Fixpoint for_each_with {A V} (l : list A) (v : V) (body : V → A → M V) : M V :=
  match l with
  | [] => mret v
  | x :: l' => v' ← body v x; for_each_with l' v' body
  end.

Definition print (message : string) (e : exn) : M unit := emit (EPrint message e).

Definition time_sleep (seconds : Q) : M unit := emit (ESleep seconds).

(** [all_content.append(row)] *)
Definition all_content_append (row : dict) : M unit := λ s,
  (Returns (), {| trace := trace s; files := files s;
                  all_content := all_content s ++ [row] |}).

(** [all_content = []] *)
Definition all_content_new : M unit := λ s,
  (Returns (), {| trace := trace s; files := files s; all_content := [] |}).

Definition get_all_content : M (list dict) := λ s, (Returns (all_content s), s).

(** [progress_callback(message, fraction)] *)
Definition call_progress (cb : callback) (message : string) (fraction : Q)
  : M unit := λ s,
  let s' := {| trace := trace s ++ [EProgress message fraction];
               files := files s; all_content := all_content s |} in
  match cb (trace s) message fraction with
  | None => (Returns (), s')
  | Some e => (Raises e, s')
  end.

(** [a / b] on two [int]s.  Python rounds the quotient to the nearest
    [float]; the model keeps the exact rational, which lies on the same side
    of every integer. *)
Definition py_truediv (a b : Z) : outcome Q :=
  if b =? 0 then Raises ZeroDivisionError
  else Returns (inject_Z a / inject_Z b)%Q.

Fixpoint map_outcome {A B} (f : A → outcome B) (l : list A) : outcome (list B) :=
  match l with
  | [] => Returns []
  | x :: l' =>
      match f x with
      | Raises e => Raises e
      | Returns y =>
          match map_outcome f l' with
          | Raises e => Raises e
          | Returns ys => Returns (y :: ys)
          end
      end
  end.

(** ** The fetcher *)

Record StreamingDataFetcher : Type := {
  tmdb_api_key : string;
  omdb_api_key : string;
  region : string;
  providers : list (Z * string);
}.

(** [StreamingDataFetcher.__init__], with [region="US"]; [providers] is the
    dict literal in its insertion order, which is the order [items()] has. *)
Definition StreamingDataFetcher_init (tmdb_key omdb_key : string)
  : StreamingDataFetcher :=
  {| tmdb_api_key := tmdb_key;
     omdb_api_key := omdb_key;
     region := "US";
     providers := [(8, "Netflix"); (2, "Apple TV"); (9, "Amazon Prime");
                   (337, "Disney+"); (384, "HBO Max"); (15, "Hulu")] |}.

Section Fetcher.

Variable E : environment.

(** One outbound call: the request is recorded, the world answers. *)
Definition requests_get_json (r : request) : M json := λ s,
  (http_get E (trace s) r,
   {| trace := trace s ++ [EGet r]; files := files s;
      all_content := all_content s |}).

Definition get_streaming_content (self : StreamingDataFetcher)
    (content_type : string) (provider_id : Z) (page : Z) : M json :=
  requests_get_json
    (Discover (tmdb_api_key self) content_type provider_id (region self) page).

Definition get_imdb_data (self : StreamingDataFetcher) (imdb_id : json) : M json :=
  requests_get_json (Omdb (omdb_api_key self) imdb_id).

Definition get_external_ids (self : StreamingDataFetcher)
    (content_type : string) (tmdb_id : json) : M json :=
  requests_get_json (ExternalIds (tmdb_api_key self) content_type tmdb_id).

Definition get_content_details (self : StreamingDataFetcher)
    (content_type : string) (tmdb_id : json) : M json :=
  requests_get_json (Details (tmdb_api_key self) content_type tmdb_id).

(** Lines 83-119: the body of the inner [try], for one discover entry. *)
Definition item_try (self : StreamingDataFetcher)
    (content_type provider_name : string) (item : json) : M unit :=
  tmdb_id ← lift (py_getitem item "id");
  details ← get_content_details self content_type tmdb_id;
  external_ids ← get_external_ids self content_type tmdb_id;
  imdb_id ← lift (py_get external_ids "imdb_id" JNull);
  let is_tv := String.eqb content_type "tv" in
  title ← lift (py_get item (if is_tv then "name" else "title") JNull);
  overview ← lift (py_get item "overview" JNull);
  release_date ←
    lift (py_get item (if is_tv then "first_air_date" else "release_date") JNull);
  tmdb_rating ← lift (py_get item "vote_average" JNull);
  popularity ← lift (py_get item "popularity" JNull);
  poster_path ← lift (py_get item "poster_path" JNull);
  let content_info : dict :=
    [("type", JStr (if is_tv then "TV Show" else "Movie"));
     ("title", title);
     ("overview", overview);
     ("tmdb_id", tmdb_id);
     ("imdb_id", imdb_id);
     ("provider", JStr provider_name);
     ("release_date", release_date);
     ("tmdb_rating", tmdb_rating);
     ("popularity", popularity);
     ("poster_path", poster_path)] in
  has_genres ← lift (py_contains "genres" details);
  content_info ←
    (if has_genres : bool then
       genres ← lift (py_getitem details "genres");
       genre_list ← lift (py_iter genres);
       names ← lift (map_outcome (λ genre, py_getitem genre "name") genre_list);
       joined ← lift (py_join ", " names);
       mret (assoc_set "genres" (JStr joined) content_info)
     else mret content_info);
  content_info ←
    (if py_truthy imdb_id then
       imdb_data ← get_imdb_data self imdb_id;
       imdb_rating ← lift (py_get imdb_data "imdbRating" (JStr "N/A"));
       imdb_votes ← lift (py_get imdb_data "imdbVotes" (JStr "N/A"));
       mret (assoc_set "imdb_votes" imdb_votes
               (assoc_set "imdb_rating" imdb_rating content_info))
     else
       mret (assoc_set "imdb_votes" (JStr "N/A")
               (assoc_set "imdb_rating" (JStr "N/A") content_info)));
  all_content_append content_info.

(** Lines 81-124: one turn of the loop over the entries of a page. *)
Definition item_body (self : StreamingDataFetcher)
    (content_type provider_name : string) (item : json) : M unit :=
  try_except (item_try self content_type provider_name item)
             (λ e, print "Error processing item: " e) ;;
  time_sleep (1 # 2).

(** Lines 70-127: one turn of the loop over the pages. *)
Definition page_body (self : StreamingDataFetcher)
    (progress_callback : option callback)
    (content_type : string) (provider_id : Z) (provider_name : string)
    (provider_idx total_providers : Z) (initial_data total_pages : json)
    (page : Z) : M unit :=
  match progress_callback with
  | Some cb =>
      let progress_message :=
        "Processing " +:+ provider_name +:+ " " +:+ content_type
          +:+ "s - page " +:+ pretty page +:+ "/" +:+ py_str total_pages in
      overall_progress ← lift (py_truediv (provider_idx - 1) total_providers);
      call_progress cb progress_message overall_progress
  | None => mret ()
  end ;;
  data ←
    (if 1 <? page then get_streaming_content self content_type provider_id page
     else mret initial_data);
  results ← lift (py_get data "results" (JArr []));
  items ← lift (py_iter results);
  for_each items (item_body self content_type provider_name) ;;
  time_sleep 1.

(** Lines 67-127: the body of the outer [try] of one combination. *)
Definition combination_try (self : StreamingDataFetcher) (max_pages : Z)
    (progress_callback : option callback)
    (content_type : string) (provider_id : Z) (provider_name : string)
    (provider_idx total_providers : Z) : M unit :=
  initial_data ← get_streaming_content self content_type provider_id 1;
  reported ← lift (py_get initial_data "total_pages" (JInt 1));
  total_pages ← lift (py_min reported max_pages);
  pages ← lift (py_range_from_1 total_pages);
  for_each pages
    (page_body self progress_callback content_type provider_id provider_name
               provider_idx total_providers initial_data total_pages).

(** Lines 62-129: one turn of the loop over the providers; the new value of
    [provider_idx] is handed on. *)
Definition combination_body (self : StreamingDataFetcher) (max_pages : Z)
    (progress_callback : option callback) (total_providers : Z)
    (content_type : string) (provider_idx : Z) (provider : Z * string) : M Z :=
  let provider_id := provider.1 in
  let provider_name := provider.2 in
  let provider_idx := provider_idx + 1 in
  try_except
    (combination_try self max_pages progress_callback content_type provider_id
                     provider_name provider_idx total_providers)
    (λ e, print ("Error processing " +:+ provider_name +:+ " " +:+ content_type
                   +:+ ": ") e) ;;
  mret provider_idx.

Definition content_types : list string := ["movie"; "tv"].

(** Lines 56-129: the two outer loops. *)
Definition aggregate (self : StreamingDataFetcher) (max_pages : Z)
    (progress_callback : option callback) : M Z :=
  let total_providers := Z.of_nat (length (providers self)) in
  for_each_with content_types 0 (λ provider_idx content_type,
    for_each_with (providers self) provider_idx
      (combination_body self max_pages progress_callback total_providers
                        content_type)).

(** [df.to_csv(filename, index=False)] where the write is accepted: creates
    the file or replaces it.  [Fallible.df_to_csv] below is the step where
    pandas or the disk may refuse. *)
Definition df_to_csv (df : list dict) (filename : string) : M unit := λ s,
  (Returns (), {| trace := trace s;
                  files := <[filename := to_csv E df]> (files s);
                  all_content := all_content s |}).

(** Lines 54-139, where the table is built and the write is accepted. *)
Definition build_content_database (self : StreamingDataFetcher) (max_pages : Z)
    (progress_callback : option callback) : M (list dict * string) :=
  all_content_new ;;
  aggregate self max_pages progress_callback ;;
  df ← get_all_content;
  let timestamp := now_strftime E in
  let filename := "streaming_content_" +:+ timestamp +:+ ".csv" in
  df_to_csv df filename ;;
  mret (df, filename).

(** [os.listdir()]: the names in the working directory, in no promised
    order. *)
Definition os_listdir : M (list string) := λ s,
  (Returns ((map_to_list (files s)).*1), s).

(** [pd.read_csv(filename)] *)
Definition pd_read_csv (filename : string) : M (list dict) := λ s,
  match files s !! filename with
  | Some text => (read_csv E text, s)
  | None => (Raises FileNotFoundError, s)
  end.

Definition startswith (s pre : string) : bool := String.prefix pre s.

Definition endswith (s suf : string) : bool :=
  String.prefix (String.rev suf) (String.rev s).

Definition is_snapshot_name (f : string) : bool :=
  startswith f "streaming_content_" && endswith f ".csv".

(** [sorted(l)] on strings: ascending in the order of the character codes. *)
Definition sorted (l : list string) : list string := merge_sort String.le l.

(** [l[-1]] *)
Definition py_last (l : list string) : outcome string :=
  match last l with
  | Some x => Returns x
  | None => Raises IndexError
  end.

(** Lines 141-153. *)
Definition load_or_create_database (tmdb_key omdb_key : string)
    (force_refresh : bool) (max_pages : Z)
    (progress_callback : option callback) : M (list dict * string) :=
  listing ← os_listdir;
  let csv_files := List.filter is_snapshot_name listing in
  if (match csv_files with [] => false | _ :: _ => true end)
       && negb force_refresh
  then
    latest_file ← lift (py_last (sorted csv_files));
    df ← pd_read_csv latest_file;
    mret (df, latest_file)
  else
    let fetcher := StreamingDataFetcher_init tmdb_key omdb_key in
    build_content_database fetcher max_pages progress_callback.

End Fetcher.

(** * Building and saving the table when pandas or the disk refuse

    Lines 132-137 stand outside both [try] blocks.  [pd.DataFrame] and
    [df.to_csv] can raise: the snapshot's name is taken by a directory, the
    working directory is read-only, a cell holds text that cannot be
    encoded.  The functions of [Fetcher] above run where neither raises;
    here the world says when they do. *)

Record saving : Type := {
  (** [pd.DataFrame(all_content)] raises this exception *)
  DataFrame_raises : list dict → option exn;
  (** [df.to_csv(filename, index=False)] raises this exception in the given
      directory; with it comes the text the call left under [filename] when
      it had opened the file before it failed *)
  to_csv_raises :
    gmap string string → list dict → string → option (exn * option string);
}.

Module Fallible.
Section Fetcher.

Variable E : environment.
Variable P : saving.

(** [pd.DataFrame(all_content)] *)
Definition pd_DataFrame (all_content : list dict) : M (list dict) :=
  lift (match DataFrame_raises P all_content with
        | Some e => Raises e
        | None => Returns all_content
        end).

(** [df.to_csv(filename, index=False)] *)
Definition df_to_csv (df : list dict) (filename : string) : M unit := λ s,
  match to_csv_raises P (files s) df filename with
  | None =>
      (Returns (), {| trace := trace s;
                      files := <[filename := to_csv E df]> (files s);
                      all_content := all_content s |})
  | Some (e, partial) =>
      (Raises e, {| trace := trace s;
                    files := match partial with
                             | Some text => <[filename := text]> (files s)
                             | None => files s
                             end;
                    all_content := all_content s |})
  end.

(** Lines 54-139. *)
Definition build_content_database (self : StreamingDataFetcher) (max_pages : Z)
    (progress_callback : option callback) : M (list dict * string) :=
  all_content_new ;;
  aggregate E self max_pages progress_callback ;;
  all_content ← get_all_content;
  df ← pd_DataFrame all_content;
  let timestamp := now_strftime E in
  let filename := "streaming_content_" +:+ timestamp +:+ ".csv" in
  df_to_csv df filename ;;
  mret (df, filename).

End Fetcher.
End Fallible.

(** * Predicates on runs *)

(** [m] takes every state to an [R]-related one, whether it returns or
    raises. *)
Definition respects (R : relation state) {A} (m : M A) : Prop :=
  ∀ s, R s (m s).2.

(** The relations used below. *)

Definition same_rows (s s' : state) : Prop := all_content s' = all_content s.

Definition same_files (s s' : state) : Prop := files s' = files s.

(** The list [all_content] only grows, by rows that satisfy [P]. *)
Definition rows_grow (P : dict → Prop) (s s' : state) : Prop :=
  ∃ block, all_content s' = all_content s ++ block ∧ Forall P block.

(** The trace only grows, by events that satisfy [P]. *)
Definition trace_grows (P : event → Prop) (s s' : state) : Prop :=
  ∃ evs, trace s' = trace s ++ evs ∧ Forall P evs.

(** [m], when it returns, returns a value that satisfies [Q]; in every case
    the states are [R]-related. *)
Definition ensures (R : relation state) {A} (Q : A → Prop) (m : M A) : Prop :=
  ∀ s, R s (m s).2 ∧ ∀ a, (m s).1 = Returns a → Q a.

(** [m], when it raises, leaves [R]-related states. *)
Definition on_raise (R : relation state) {A} (m : M A) : Prop :=
  ∀ s e s', m s = (Raises e, s') → R s s'.

(** [m] cannot raise. *)
Definition returns {A} (m : M A) : Prop := ∀ s, ∃ a s', m s = (Returns a, s').

Definition snapshot_name (E : environment) : string :=
  "streaming_content_" +:+ now_strftime E +:+ ".csv".

(** The state when the two loops are over. *)
Definition after_aggregate (E : environment) (self : StreamingDataFetcher)
    (max_pages : Z) (cb : option callback) (s : state) : state :=
  (aggregate E self max_pages cb
     {| trace := trace s; files := files s; all_content := [] |}).2.

(** The names [load_or_create_database] chooses among. *)
Definition csv_files (s : state) : list string :=
  List.filter is_snapshot_name (map_to_list (files s)).*1.


Definition outcome_map {A B} (f : A → B) (o : outcome A) : outcome B :=
  match o with
  | Returns a => Returns (f a)
  | Raises e => Raises e
  end.

(** ** Rows and their combination *)

(** The category written for a content type (line 94). *)
Definition label_of (content_type : string) : string :=
  if String.eqb content_type "tv" then "TV Show" else "Movie".

(** A row of the combination [(label, provider_name)]: both are stored as
    strings, and the keys [title] and [tmdb_id] are present. *)
Definition row_of (label provider_name : string) (row : dict) : Prop :=
  assoc_get "type" row = Some (JStr label)
  ∧ assoc_get "provider" row = Some (JStr provider_name)
  ∧ is_Some (assoc_get "title" row)
  ∧ is_Some (assoc_get "tmdb_id" row).

(** One block of rows per provider, in the order of the provider table. *)
Definition blocks_of (label : string) (provider_names : list string)
    (blocks : list (list dict)) : Prop :=
  Forall2 (λ name block, Forall (row_of label name) block)
          provider_names blocks.

(** What holds of every row of a fetcher's table. *)
Definition row_ok (self : StreamingDataFetcher) (row : dict) : Prop :=
  (assoc_get "type" row = Some (JStr "Movie")
   ∨ assoc_get "type" row = Some (JStr "TV Show"))
  ∧ (∃ name, name ∈ (providers self).*2
             ∧ assoc_get "provider" row = Some (JStr name))
  ∧ is_Some (assoc_get "title" row)
  ∧ is_Some (assoc_get "tmdb_id" row).

(** The fields the specification wants populated. *)
Definition is_null (x : option json) : bool :=
  match x with Some JNull | None => true | Some _ => false end.

Definition fully_populated (row : dict) : bool :=
  negb (is_null (assoc_get "type" row))
  && negb (is_null (assoc_get "title" row))
  && negb (is_null (assoc_get "provider" row))
  && negb (is_null (assoc_get "tmdb_id" row)).

(** ** Failing enrichment calls *)

(** One of the three enrichment requests sent for [item] in a run of
    [item_try] from [s] raises: the detail lookup, the external-id lookup
    after it, or the rating lookup after both. *)
Inductive enrichment_fails (E : environment) (self : StreamingDataFetcher)
    (content_type : string) (item : json) (s : state) : Prop :=
  | details_fails tmdb_id e :
      py_getitem item "id" = Returns tmdb_id →
      http_get E (trace s) (Details (tmdb_api_key self) content_type tmdb_id)
        = Raises e →
      enrichment_fails E self content_type item s
  | external_ids_fails tmdb_id details e :
      py_getitem item "id" = Returns tmdb_id →
      http_get E (trace s) (Details (tmdb_api_key self) content_type tmdb_id)
        = Returns details →
      http_get E
        (trace s ++ [EGet (Details (tmdb_api_key self) content_type tmdb_id)])
        (ExternalIds (tmdb_api_key self) content_type tmdb_id)
        = Raises e →
      enrichment_fails E self content_type item s
  | rating_fails tmdb_id details external_ids imdb_id e :
      py_getitem item "id" = Returns tmdb_id →
      http_get E (trace s) (Details (tmdb_api_key self) content_type tmdb_id)
        = Returns details →
      http_get E
        (trace s ++ [EGet (Details (tmdb_api_key self) content_type tmdb_id)])
        (ExternalIds (tmdb_api_key self) content_type tmdb_id)
        = Returns external_ids →
      py_get external_ids "imdb_id" JNull = Returns imdb_id →
      py_truthy imdb_id = true →
      http_get E
        ((trace s ++ [EGet (Details (tmdb_api_key self) content_type tmdb_id)])
           ++ [EGet (ExternalIds (tmdb_api_key self) content_type tmdb_id)])
        (Omdb (omdb_api_key self) imdb_id)
        = Raises e →
      enrichment_fails E self content_type item s.

(** The enrichment requests for [item] are answered, but without the
    fields asked for: the details have no genres, and either no usable IMDb
    identifier comes back or the rating answer has neither rating nor
    votes. *)
Inductive enrichment_empty (E : environment) (self : StreamingDataFetcher)
    (content_type : string) (item : json) (s : state) : Prop :=
  | no_imdb_id kv tmdb_id details external_ids imdb_id :
      item = JObj kv →
      assoc_get "id" kv = Some tmdb_id →
      http_get E (trace s) (Details (tmdb_api_key self) content_type tmdb_id)
        = Returns details →
      py_contains "genres" details = Returns false →
      http_get E
        (trace s ++ [EGet (Details (tmdb_api_key self) content_type tmdb_id)])
        (ExternalIds (tmdb_api_key self) content_type tmdb_id)
        = Returns external_ids →
      py_get external_ids "imdb_id" JNull = Returns imdb_id →
      py_truthy imdb_id = false →
      enrichment_empty E self content_type item s
  | no_rating kv tmdb_id details external_ids imdb_id rating :
      item = JObj kv →
      assoc_get "id" kv = Some tmdb_id →
      http_get E (trace s) (Details (tmdb_api_key self) content_type tmdb_id)
        = Returns details →
      py_contains "genres" details = Returns false →
      http_get E
        (trace s ++ [EGet (Details (tmdb_api_key self) content_type tmdb_id)])
        (ExternalIds (tmdb_api_key self) content_type tmdb_id)
        = Returns external_ids →
      py_get external_ids "imdb_id" JNull = Returns imdb_id →
      py_truthy imdb_id = true →
      http_get E
        ((trace s ++ [EGet (Details (tmdb_api_key self) content_type tmdb_id)])
           ++ [EGet (ExternalIds (tmdb_api_key self) content_type tmdb_id)])
        (Omdb (omdb_api_key self) imdb_id)
        = Returns (JObj rating) →
      assoc_get "imdbRating" rating = None →
      assoc_get "imdbVotes" rating = None →
      enrichment_empty E self content_type item s.

(** A row whose enrichment fields are all at their fallback. *)
Definition fallback_row (row : dict) : Prop :=
  assoc_get "genres" row = None
  ∧ assoc_get "imdb_rating" row = Some (JStr "N/A")
  ∧ assoc_get "imdb_votes" row = Some (JStr "N/A").

(** ** Counting pages *)

(** [time.sleep(1)] closes the processing of a page (line 127); the pause
    after an entry is half a second. *)
Definition is_page_sleep (ev : event) : bool :=
  match ev with
  | ESleep seconds => Qeq_bool seconds 1
  | _ => false
  end.

(** The pages whose processing ran to its end. *)
Definition pages_completed (evs : list event) : nat :=
  length (List.filter is_page_sleep evs).

Definition is_progress (ev : event) : bool :=
  match ev with
  | EProgress _ _ => true
  | _ => false
  end.

(** The pages whose processing began, as a callback sees them. *)
Definition pages_started (evs : list event) : nat :=
  length (List.filter is_progress evs).

(** The fractions handed to the progress callback, in order. *)
Definition progress_fractions (evs : list event) : list Q :=
  omap (λ ev, match ev with EProgress _ q => Some q | _ => None end) evs.

(** The events between two states of one run. *)
Definition new_events (s s' : state) : list event :=
  drop (length (trace s)) (trace s').

(** A discover answer the page loop can walk through. *)
Definition page_readable (o : outcome json) : Prop :=
  ∃ data results items,
    o = Returns data
    ∧ py_get data "results" (JArr []) = Returns results
    ∧ py_iter results = Returns items.

(** A callback that never raises (or no callback at all). *)
Definition callback_quiet (cb : option callback) : Prop :=
  match cb with
  | Some f => ∀ h message fraction, f h message fraction = None
  | None => True
  end.

(** The trace grows by events of which [n] close a page. *)
Definition closes_pages (n : nat) (s s' : state) : Prop :=
  ∃ evs, trace s' = trace s ++ evs ∧ pages_completed evs = n.

(** [m] closes one page when it returns and none when it raises. *)
Definition closes_a_page {A} (m : M A) : Prop :=
  ∀ s, closes_pages (if returned (m s).1 then 1 else 0) s (m s).2.

(** ** Stand-ins used in the concrete runs

    The theorems hold for every environment; the concrete runs below need
    one.  [offline] is a machine without network: every request raises.
    The CSV writer is a stand-in that only records how many rows it was
    given; the reader refuses an empty file, as pandas does, and reads a
    text of one line as a table without rows.  For the table without rows
    the pair does not follow pandas, which writes it as an empty line and
    refuses to read that; [titles_csv] and [read_titles] below do. *)

Definition rows_text (rows : list dict) : string :=
  "rows=" +:+ pretty (length rows).

Definition refuse_empty (text : string) : outcome (list dict) :=
  if String.eqb text "" then Raises EmptyDataError else Returns [].

Definition offline : environment :=
  {| http_get := λ _ _, Raises RequestException;
     now_strftime := "20240601_000000";
     to_csv := rows_text;
     read_csv := refuse_empty |}.

(** Services that answer every request with the body of a 401 status;
    [requests.get] does not raise for it. *)
Definition invalid_key_body : json :=
  JObj [("success", JBool false); ("status_code", JInt 7);
        ("status_message", JStr "Invalid API key.")].

Definition unauthorized : environment :=
  {| http_get := λ _ _, Returns invalid_key_body;
     now_strftime := "20240601_000000";
     to_csv := rows_text;
     read_csv := refuse_empty |}.

Definition empty_directory : state :=
  {| trace := []; files := ∅; all_content := [] |}.

(** A directory whose only snapshot is an empty file. *)
Definition empty_snapshot_directory : state :=
  {| trace := [];
     files := {[ "streaming_content_20240101_010101.csv" := "" ]};
     all_content := [] |}.

(** A directory with two snapshots and a file of another kind. *)
Definition two_snapshots_directory : state :=
  {| trace := [];
     files := {[ "streaming_content_20240101_010101.csv" := "old";
                 "streaming_content_20240601_000000.csv" := "new";
                 "zz_notes.txt" := "text" ]};
     all_content := [] |}.

(** A catalogue with one discover entry that carries an identifier and
    nothing else and one whose identifier is null; the other endpoints
    answer with empty objects. *)
Definition bare_entries : environment :=
  {| http_get := λ _ r,
       match r with
       | Discover _ _ _ _ _ =>
           Returns (JObj [("total_pages", JInt 1);
                          ("results",
                           JArr [JObj [("id", JInt 603)];
                                 JObj [("id", JNull);
                                       ("title", JStr "Untitled");
                                       ("name", JStr "Untitled")]])])
       | _ => Returns (JObj [])
       end;
     now_strftime := "20240601_000000";
     to_csv := rows_text;
     read_csv := refuse_empty |}.

(** A catalogue that lists one complete entry per page while its detail
    endpoint is down. *)
Definition details_down : environment :=
  {| http_get := λ _ r,
       match r with
       | Discover _ _ _ _ _ =>
           Returns (JObj [("total_pages", JInt 1);
                          ("results",
                           JArr [JObj [("id", JInt 603);
                                       ("title", JStr "The Matrix");
                                       ("name", JStr "The Matrix")]])])
       | Details _ _ _ => Raises RequestException
       | _ => Returns (JObj [])
       end;
     now_strftime := "20240601_000000";
     to_csv := rows_text;
     read_csv := refuse_empty |}.

(** A catalogue that announces three pages; [first_page_only] can deliver
    only the first of them, [three_pages] delivers every page. *)
Definition three_pages_answer : json :=
  JObj [("total_pages", JInt 3); ("results", JArr [])].

Definition first_page_only : environment :=
  {| http_get := λ _ r,
       match r with
       | Discover _ _ _ _ page =>
           if page =? 1 then Returns three_pages_answer
           else Raises RequestException
       | _ => Returns (JObj [])
       end;
     now_strftime := "20240601_000000";
     to_csv := rows_text;
     read_csv := refuse_empty |}.

Definition three_pages : environment :=
  {| http_get := λ _ r,
       match r with
       | Discover _ _ _ _ _ => Returns three_pages_answer
       | _ => Returns (JObj [])
       end;
     now_strftime := "20240601_000000";
     to_csv := rows_text;
     read_csv := refuse_empty |}.

Definition quiet : callback := λ _ _ _, None.

(** Pandas and a disk that accept every table. *)
Definition reliable : saving :=
  {| DataFrame_raises := λ _, None;
     to_csv_raises := λ _ _ _, None |}.

(** A working directory in which the snapshot's name is taken by a
    directory: [open] fails before anything is written. *)
Definition name_is_directory : saving :=
  {| DataFrame_raises := λ _, None;
     to_csv_raises := λ _ _ _, Some (IsADirectoryError, None) |}.

(** What stops the table from being built and saved, if anything does. *)
Definition refusal (P : saving) (directory : gmap string string)
    (rows : list dict) (filename : string) : option exn :=
  match DataFrame_raises P rows with
  | Some e => Some e
  | None => fst <$> to_csv_raises P directory rows filename
  end.

(** The state the two loops start from. *)
Definition before_aggregate (s : state) : state :=
  {| trace := trace s; files := files s; all_content := [] |}.

(** * Further predicates on runs *)

(** ** The pages asked for *)

(** The page numbers of the discover requests among [evs], in order. *)
Definition discover_pages (evs : list event) : list Z :=
  omap (λ ev, match ev with
              | EGet (Discover _ _ _ _ page) => Some page
              | _ => None
              end) evs.

Definition is_discover (ev : event) : bool :=
  match ev with
  | EGet (Discover _ _ _ _ _) => true
  | _ => false
  end.

(** The trace grows by events whose discover requests ask for the pages
    [l], in this order. *)
Definition discovers (l : list Z) (s s' : state) : Prop :=
  ∃ evs, trace s' = trace s ++ evs ∧ discover_pages evs = l.



(** Nothing is appended and the callback is not called. *)
Definition idle (s s' : state) : Prop :=
  all_content s' = all_content s
  ∧ ∃ evs, trace s' = trace s ++ evs ∧ progress_fractions evs = [].



(** A catalogue with one complete entry per combination. *)
Definition one_entry : environment :=
  {| http_get := λ _ r,
       match r with
       | Discover _ _ _ _ _ =>
           Returns (JObj [("total_pages", JInt 1);
                          ("results",
                           JArr [JObj [("id", JInt 603);
                                       ("title", JStr "The Matrix");
                                       ("name", JStr "The Matrix")]])])
       | _ => Returns (JObj [])
       end;
     now_strftime := "20240601_000000";
     to_csv := rows_text;
     read_csv := refuse_empty |}.

(** ** The layout and the content of a row *)

Definition base_keys : list string :=
  ["type"; "title"; "overview"; "tmdb_id"; "imdb_id"; "provider";
   "release_date"; "tmdb_rating"; "popularity"; "poster_path"].

(** The keys of a row, in order: the ten of the dict literal, [genres] when
    the details had them, and the two rating fields; [genres] holds a
    string. *)
Definition row_layout (row : dict) : Prop :=
  (row.*1 = base_keys ++ ["imdb_rating"; "imdb_votes"]
   ∨ row.*1 = base_keys ++ ["genres"; "imdb_rating"; "imdb_votes"])
  ∧ (assoc_get "genres" row = None
     ∨ ∃ joined, assoc_get "genres" row = Some (JStr joined)).

(** ** The columns of the table

    [pd.DataFrame(rows)] on a list of dicts takes as its columns the keys of
    the dicts in the order in which they first appear, and gives a row the
    missing value (NaN) in every column whose key its dict lacks. *)

Fixpoint add_unseen (seen keys : list string) : list string :=
  match keys with
  | [] => seen
  | k :: keys' =>
      add_unseen (if existsb (String.eqb k) seen then seen else seen ++ [k])
                 keys'
  end.

Definition DataFrame_columns (rows : list dict) : list string :=
  foldl (λ seen row, add_unseen seen row.*1) [] rows.

(** Whether the dict of a row has the key, so that its cell is not the
    missing value. *)
Definition has_key (k : string) (row : dict) : bool :=
  match assoc_get k row with Some _ => true | None => false end.

(** The columns the table of [build_content_database] can have: none for
    the table without rows, and otherwise the ten of the dict literal and
    the two rating fields, with [genres] before the rating fields when the
    first row has genres and behind them when a later row is the first to
    have them. *)
Definition catalogue_columns (df : list dict) : list string :=
  match df with
  | [] => []
  | first :: rest =>
      if has_key "genres" first
      then base_keys ++ ["genres"; "imdb_rating"; "imdb_votes"]
      else if existsb (has_key "genres") rest
      then base_keys ++ ["imdb_rating"; "imdb_votes"; "genres"]
      else base_keys ++ ["imdb_rating"; "imdb_votes"]
  end.

(** The fields a row takes from the discover entry [kv], with [None] for a
    key the entry lacks; a TV show has its title under [name] and its date
    under [first_air_date]. *)
Definition copied_from (content_type : string) (kv : list (string * json))
    (row : dict) : Prop :=
  let is_tv := String.eqb content_type "tv" in
  assoc_get "tmdb_id" row = assoc_get "id" kv
  ∧ assoc_get "title" row
    = Some (default JNull (assoc_get (if is_tv then "name" else "title") kv))
  ∧ assoc_get "release_date" row
    = Some (default JNull
              (assoc_get (if is_tv then "first_air_date" else "release_date")
                 kv))
  ∧ assoc_get "overview" row = Some (default JNull (assoc_get "overview" kv))
  ∧ assoc_get "tmdb_rating" row
    = Some (default JNull (assoc_get "vote_average" kv))
  ∧ assoc_get "popularity" row
    = Some (default JNull (assoc_get "popularity" kv))
  ∧ assoc_get "poster_path" row
    = Some (default JNull (assoc_get "poster_path" kv)).

(** ** What a row costs *)

Definition is_details (ev : event) : bool :=
  match ev with EGet (Details _ _ _) => true | _ => false end.

Definition is_external_ids (ev : event) : bool :=
  match ev with EGet (ExternalIds _ _ _) => true | _ => false end.

(** [time.sleep(0.5)], the pause after an entry (line 124). *)
Definition is_item_sleep (ev : event) : bool :=
  match ev with ESleep seconds => Qeq_bool seconds (1 # 2) | _ => false end.

Definition count (f : event → bool) (evs : list event) : nat :=
  length (List.filter f evs).

(** The run has appended no more rows than it has sent detail requests,
    external-id requests and made pauses of half a second. *)
Definition paid_for (s s' : state) : Prop :=
  ∃ block evs,
    all_content s' = all_content s ++ block
    ∧ trace s' = trace s ++ evs
    ∧ (length block ≤ count is_details evs)%nat
    ∧ (length block ≤ count is_external_ids evs)%nat
    ∧ (length block ≤ count is_item_sleep evs)%nat.

(** The snapshot name for a timestamp text (line 136). *)
Definition snapshot_name_of (timestamp : string) : string :=
  "streaming_content_" +:+ timestamp +:+ ".csv".

(** * The callers in [app.py] and [app1.py] *)

Section Callers.

Variable E : environment.

(** [find_latest_database] ([app.py], lines 85-89): the greatest snapshot
    name of the working directory, or [None]. *)
Definition find_latest_database : M (option string) :=
  listing ← os_listdir;
  let csv_files := List.filter is_snapshot_name listing in
  if (match csv_files with [] => false | _ :: _ => true end)
  then latest ← lift (py_last (sorted csv_files)); mret (Some latest)
  else mret None.

End Callers.

(** [latest] is the greatest snapshot name of the directory and [text] is
    what the file holds. *)
Definition latest_snapshot (s : state) (latest text : string) : Prop :=
  files s !! latest = Some text
  ∧ is_snapshot_name latest = true
  ∧ ∀ f, is_Some (files s !! f) → is_snapshot_name f = true →
         String.le f latest.

(** What the script puts on the page. *)
Inductive ui : Type :=
  | StSuccess (message : string)
  | StError (message : string) (e : exn)
  | StWarning (message : string)
  | StSubheader (message : string)
  | StProgress (value : Z)
  | StEmpty
  | ProgressBarEmpty
  | StatusTextEmpty.

(** How a run of the script's loading section ends: [st.stop()],
    [st.experimental_rerun()], an exception nobody catches, or the script
    going on with the table of the session. *)
Inductive control : Type :=
  | Stop
  | Rerun
  | Crash (e : exn)
  | Continue.

(** The two entries of [st.session_state] the section writes. *)
Record session_state : Type := {
  session_df : option (list dict);
  session_filename : option string;
}.

Record app_state : Type := {
  world : state;
  session : session_state;
  screen : list ui;
}.

Definition show (a : app_state) (widgets : list ui) : app_state :=
  {| world := world a; session := session a; screen := screen a ++ widgets |}.

(** [not key] and [latest_db] as conditions. *)
Definition str_truthy (s : string) : bool := negb (String.eqb s EmptyString).

Definition opt_truthy (o : option string) : bool :=
  match o with Some s => str_truthy s | None => false end.

Definition keys_warning : string :=
  "Please enter your TMDB and OMDB API keys in the sidebar.".

Definition entries_message (what filename : string) (df : list dict) : string :=
  what +:+ filename +:+ " with " +:+ pretty (length df) +:+ " entries".

Section Scripts.

Variable E : environment.

(** [update_progress], which drives the two progress widgets. *)
Variable update_progress : callback.

(** [app.py], lines 97-106: the attempt to load the snapshot found.  It
    hands on [latest_db], reset to [None] when the load has failed. *)
Definition app_try_load (latest_db : option string) (force_refresh : bool)
    (a : app_state) : option string * app_state :=
  match latest_db with
  | Some name =>
      if str_truthy name && negb force_refresh then
        match pd_read_csv E name (world a) with
        | (Returns df, w) =>
            (latest_db,
             {| world := w;
                session := {| session_df := Some df;
                              session_filename := Some name |};
                screen := screen a
                  ++ [StSuccess (entries_message "Loaded existing database: "
                                   name df)] |})
        | (Raises e, w) =>
            (None,
             {| world := w; session := session a;
                screen := screen a
                  ++ [StError "Error loading existing database: " e] |})
        end
      else (latest_db, a)
  | None => (latest_db, a)
  end.

(** [app.py], lines 108-138: the rebuild, behind the check of the keys. *)
Definition app_rebuild (tmdb_api_key omdb_api_key : string) (max_pages : Z)
    (a : app_state) : control * app_state :=
  if negb (str_truthy tmdb_api_key) || negb (str_truthy omdb_api_key) then
    (Stop, show a [StWarning keys_warning])
  else
    let a1 := show a [StSubheader "Loading Data..."; StProgress 0; StEmpty] in
    match load_or_create_database E tmdb_api_key omdb_api_key true max_pages
            (Some update_progress) (world a1) with
    | (Returns (df, filename), w) =>
        (Rerun,
         {| world := (time_sleep 1 w).2;
            session := {| session_df := Some df;
                          session_filename := Some filename |};
            screen := screen a1
              ++ [ProgressBarEmpty; StatusTextEmpty;
                  StSuccess (entries_message "Database created successfully: "
                               filename df)] |})
    | (Raises e, w) =>
        (Stop,
         {| world := w; session := session a1;
            screen := screen a1 ++ [StError "Error creating database: " e] |})
    end.

(** [app.py], lines 91-144. *)
Definition app_load_section (tmdb_api_key omdb_api_key : string)
    (force_refresh refresh_button : bool) (max_pages : Z) (a : app_state)
  : control * app_state :=
  if negb (bool_decide (is_Some (session_df (session a)))) || refresh_button
  then
    match find_latest_database (world a) with
    | (Raises e, w) =>
        (Crash e, {| world := w; session := session a; screen := screen a |})
    | (Returns latest_db, w) =>
        let a1 := {| world := w; session := session a; screen := screen a |} in
        let '(latest_db, a2) := app_try_load latest_db force_refresh a1 in
        if negb (opt_truthy latest_db) || force_refresh
        then app_rebuild tmdb_api_key omdb_api_key max_pages a2
        else (Rerun, a2)
    end
  else (Continue, a).

(** [app1.py], lines 62-98: the keys are checked first, then
    [load_or_create_database] decides between loading and rebuilding. *)
Definition app1_load_section (tmdb_api_key omdb_api_key : string)
    (force_refresh refresh_button : bool) (max_pages : Z) (a : app_state)
  : control * app_state :=
  if negb (bool_decide (is_Some (session_df (session a)))) || refresh_button
  then
    if negb (str_truthy tmdb_api_key) || negb (str_truthy omdb_api_key) then
      (Stop, show a [StWarning keys_warning])
    else
      let a1 := show a [StSubheader "Loading Data..."; StProgress 0; StEmpty] in
      match load_or_create_database E tmdb_api_key omdb_api_key force_refresh
              max_pages (Some update_progress) (world a1) with
      | (Returns (df, filename), w) =>
          (Rerun,
           {| world := (time_sleep 1 w).2;
              session := {| session_df := Some df;
                            session_filename := Some filename |};
              screen := screen a1
                ++ [ProgressBarEmpty; StatusTextEmpty;
                    StSuccess (entries_message "Database loaded successfully: "
                                 filename df)] |})
      | (Raises e, w) =>
          (Stop,
           {| world := w; session := session a1;
              screen := screen a1 ++ [StError "Error loading database: " e] |})
      end
  else (Continue, a).

End Scripts.

(** The script at its first run on a directory: an empty session and an
    empty page. *)
Definition first_run (s : state) : app_state :=
  {| world := s;
     session := {| session_df := None; session_filename := None |};
     screen := [] |}.

(** * The genre filter of [app.py] *)

(** [s.split(sep)] for a separator that is not empty: the pieces between
    the occurrences of [sep], found from the left; [skip] characters of an
    occurrence are still to be passed over. *)
Fixpoint split_go (sep : string) (skip : nat) (piece s : string)
  : list string :=
  match s with
  | EmptyString => [piece]
  | String c s' =>
      match skip with
      | S k => split_go sep k piece s'
      | O =>
          if String.prefix sep s
          then piece :: split_go sep (String.length sep - 1) EmptyString s'
          else split_go sep 0 (piece +:+ String c EmptyString) s'
      end
  end.

Definition py_split (sep s : string) : list string :=
  split_go sep 0 EmptyString s.

(** [sep in s] *)
Fixpoint occurs (sep s : string) : bool :=
  String.prefix sep s
  || match s with
     | EmptyString => false
     | String _ s' => occurs sep s'
     end.

(** Lines 231-233: the mask of the genre filter on one cell of the [genres]
    column, [None] being a missing value:
    [any(genre in str(x).split(", ") for genre in selected_genres)
     if pd.notna(x) else False]. *)
Definition genre_mask (selected_genres : list string) (x : option string)
  : bool :=
  match x with
  | Some genres =>
      existsb (λ genre, bool_decide (genre ∈ py_split ", " genres))
              selected_genres
  | None => false
  end.

(** * Further invariants of the table and of the progress reports *)

(** A progress report whose fraction is at least 0 and below 2. *)
Definition fraction_in_range (ev : event) : Prop :=
  match ev with
  | EProgress _ fraction => (0 <= fraction)%Q ∧ (fraction < 2)%Q
  | _ => True
  end.

(** A row without a usable IMDb identifier has both rating fields at their
    fallback. *)
Definition unrated_without_id (row : dict) : Prop :=
  ∀ imdb_id,
    assoc_get "imdb_id" row = Some imdb_id →
    py_truthy imdb_id = false →
    assoc_get "imdb_rating" row = Some (JStr "N/A")
    ∧ assoc_get "imdb_votes" row = Some (JStr "N/A").

(** ** Stand-ins that write and read a table

    A writer and a reader that keep the [title] column.  The table without
    rows has no column: it is written as an empty line, and the reader
    raises on a text without a header, as pandas does. *)

Definition newline : string := String (Ascii.ascii_of_nat 10) EmptyString.

Definition title_cell (row : dict) : string :=
  match assoc_get "title" row with
  | Some (JStr title) => title
  | _ => ""
  end.

Definition titles_csv (rows : list dict) : string :=
  match rows with
  | [] => newline
  | _ :: _ =>
      "title" +:+ newline
      +:+ String.concat "" ((λ row, title_cell row +:+ newline) <$> rows)
  end.

Definition read_titles (text : string) : outcome (list dict) :=
  match py_split newline text with
  | header :: lines =>
      if String.eqb header ""
      then Raises EmptyDataError
      else Returns ((λ title, [("title", JStr title)])
                      <$> List.filter (λ line, negb (String.eqb line ""))
                            lines)
  | [] => Raises EmptyDataError
  end.


Definition offline_on_disk : environment :=
  {| http_get := http_get offline;
     now_strftime := "20240601_000000";
     to_csv := titles_csv;
     read_csv := read_titles |}.

(** A catalogue with two movies on Netflix and nothing else; only the
    details of the second carry genres. *)
Definition genres_later : environment :=
  {| http_get := λ _ r,
       match r with
       | Discover _ content_type provider_id _ _ =>
           if String.eqb content_type "movie" && Z.eqb provider_id 8
           then Returns (JObj [("total_pages", JInt 1);
                               ("results", JArr [JObj [("id", JInt 1)];
                                                 JObj [("id", JInt 2)]])])
           else Returns (JObj [("total_pages", JInt 0)])
       | Details _ _ (JInt 2) =>
           Returns (JObj [("genres", JArr [JObj [("name", JStr "Drama")]])])
       | _ => Returns (JObj [])
       end;
     now_strftime := "20240601_000000";
     to_csv := titles_csv;
     read_csv := read_titles |}.
(** * Reasoning about runs *)

(** ** Relations between the state before and after a statement *)

Section Respects.

Context (R : relation state) `{!PreOrder R}.

Lemma respects_ret {A} (a : A) : respects R (mret a).
Proof. intros s. reflexivity. Qed.

Lemma respects_lift {A} (o : outcome A) : respects R (lift o).
Proof. intros s. reflexivity. Qed.

Lemma respects_bind {A B} (m : M A) (f : A → M B) :
  respects R m → (∀ a, respects R (f a)) → respects R (m ≫= f).
Proof.
  intros Hm Hf s. specialize (Hm s).
  unfold mbind, M_bind. destruct (m s) as [[a|e] s1]; simpl in *.
  - transitivity s1; [exact Hm | apply Hf].
  - exact Hm.
Qed.

Lemma respects_try_except (body : M unit) (handler : exn → M unit) :
  respects R body → (∀ e, respects R (handler e)) →
  respects R (try_except body handler).
Proof.
  intros Hb Hh s. specialize (Hb s).
  unfold try_except. destruct (body s) as [[[]|e] s1]; simpl in *.
  - exact Hb.
  - transitivity s1; [exact Hb | apply Hh].
Qed.

Lemma respects_for_each {A} (l : list A) (body : A → M unit) :
  (∀ x, respects R (body x)) → respects R (for_each l body).
Proof.
  intros Hb. induction l as [|x l IH]; simpl.
  - apply respects_ret.
  - apply respects_bind; [apply Hb | intros _; exact IH].
Qed.

Lemma respects_for_each_with {A V} (l : list A) (body : V → A → M V) :
  (∀ v x, respects R (body v x)) → ∀ v, respects R (for_each_with l v body).
Proof.
  intros Hb. induction l as [|x l IH]; intros v; simpl.
  - apply respects_ret.
  - apply respects_bind; [apply Hb | intros v'; apply IH].
Qed.

End Respects.

Global Instance same_rows_preorder : PreOrder same_rows.
Proof.
  split; [intros s; reflexivity |].
  intros s1 s2 s3 H12 H23. unfold same_rows in *. congruence.
Qed.

Global Instance same_files_preorder : PreOrder same_files.
Proof.
  split; [intros s; reflexivity |].
  intros s1 s2 s3 H12 H23. unfold same_files in *. congruence.
Qed.

Global Instance rows_grow_preorder P : PreOrder (rows_grow P).
Proof.
  split.
  - intros s. exists []. by rewrite app_nil_r.
  - intros s1 s2 s3 (b1 & E1 & F1) (b2 & E2 & F2). exists (b1 ++ b2).
    split; [by rewrite E2, E1, app_assoc | by apply Forall_app].
Qed.

Global Instance trace_grows_preorder P : PreOrder (trace_grows P).
Proof.
  split.
  - intros s. exists []. by rewrite app_nil_r.
  - intros s1 s2 s3 (b1 & E1 & F1) (b2 & E2 & F2). exists (b1 ++ b2).
    split; [by rewrite E2, E1, app_assoc | by apply Forall_app].
Qed.

Section Ensures.

Context (R : relation state) `{!PreOrder R}.

Lemma ensures_ret {A} (Q : A → Prop) (a : A) : Q a → ensures R Q (mret a).
Proof. intros HQ s. split; [reflexivity |]. intros a' [= <-]. exact HQ. Qed.

Lemma ensures_bind {A B} (Q : B → Prop) (m : M A) (f : A → M B) :
  respects R m → (∀ a, ensures R Q (f a)) → ensures R Q (m ≫= f).
Proof.
  intros Hm Hf s. specialize (Hm s).
  unfold mbind, M_bind. destruct (m s) as [[a|e] s1]; simpl in *.
  - destruct (Hf a s1) as [HR HQ]. split; [by transitivity s1 | exact HQ].
  - split; [exact Hm | intros a [=]].
Qed.

Lemma respects_bind_ensures {A B} (Q : A → Prop) (m : M A) (f : A → M B) :
  ensures R Q m → (∀ a, Q a → respects R (f a)) → respects R (m ≫= f).
Proof.
  intros Hm Hf s. destruct (Hm s) as [HR HQ].
  unfold mbind, M_bind. destruct (m s) as [[a|e] s1]; simpl in *.
  - transitivity s1; [exact HR | by apply Hf, HQ].
  - exact HR.
Qed.

Lemma on_raise_bind {A B} (m : M A) (f : A → M B) :
  respects R m → (∀ a, on_raise R (f a)) → on_raise R (m ≫= f).
Proof.
  intros Hm Hf s e s'. specialize (Hm s).
  unfold mbind, M_bind. destruct (m s) as [[a|e1] s1]; simpl in *.
  - intros Hrun. transitivity s1; [exact Hm | by eapply Hf].
  - intros [= <- <-]. exact Hm.
Qed.

End Ensures.

(** ** Statements that cannot raise *)

Lemma returns_ret {A} (a : A) : returns (mret a).
Proof. intros s. by exists a, s. Qed.

Lemma returns_emit ev : returns (emit ev).
Proof. intros s. unfold emit. by eexists _, _. Qed.

Lemma returns_bind {A B} (m : M A) (f : A → M B) :
  returns m → (∀ a, returns (f a)) → returns (m ≫= f).
Proof.
  intros Hm Hf s. destruct (Hm s) as (a & s1 & Hrun).
  unfold mbind, M_bind. rewrite Hrun. apply Hf.
Qed.

(** A [try] whose handler cannot raise swallows whatever its body raises. *)
Lemma returns_try_except (body : M unit) (handler : exn → M unit) :
  (∀ e, returns (handler e)) → returns (try_except body handler).
Proof.
  intros Hh s. unfold try_except. destruct (body s) as [[[]|e] s1].
  - by exists (), s1.
  - apply Hh.
Qed.

Lemma returns_for_each {A} (l : list A) (body : A → M unit) :
  (∀ x, returns (body x)) → returns (for_each l body).
Proof.
  intros Hb. induction l as [|x l IH]; simpl.
  - apply returns_ret.
  - apply returns_bind; [apply Hb | intros _; exact IH].
Qed.

Lemma returns_for_each_with {A V} (l : list A) (body : V → A → M V) :
  (∀ v x, returns (body v x)) → ∀ v, returns (for_each_with l v body).
Proof.
  intros Hb. induction l as [|x l IH]; intros v; simpl.
  - apply returns_ret.
  - apply returns_bind; [apply Hb | intros v'; apply IH].
Qed.

Lemma item_body_returns E self content_type provider_name item :
  returns (item_body E self content_type provider_name item).
Proof.
  unfold item_body. apply returns_bind.
  - apply returns_try_except. intros e. apply returns_emit.
  - intros _. apply returns_emit.
Qed.

Lemma combination_body_returns E self max_pages cb total ct idx provider :
  returns (combination_body E self max_pages cb total ct idx provider).
Proof.
  unfold combination_body. apply returns_bind.
  - apply returns_try_except. intros e. apply returns_emit.
  - intros _. apply returns_ret.
Qed.

Lemma aggregate_returns E self max_pages cb :
  returns (aggregate E self max_pages cb).
Proof.
  unfold aggregate. apply returns_for_each_with. intros idx ct.
  apply returns_for_each_with. intros idx' provider.
  apply combination_body_returns.
Qed.

(** ** What each statement may touch *)

(** The primitive statements, unfolded to their effect on the state. *)
Ltac prim :=
  intros ?s;
  unfold requests_get_json, get_streaming_content, get_imdb_data,
    get_external_ids, get_content_details, call_progress, print, time_sleep,
    emit, all_content_append, lift;
  simpl; repeat case_match; simpl.

(** Walks down a statement along the rules of [Respects]. *)
Ltac walk leaf :=
  repeat first
    [ match goal with
      | |- respects ?R (mret _) => apply (respects_ret R)
      | |- respects ?R (lift _) => apply (respects_lift R)
      | |- respects ?R (_ ≫= _) => apply (respects_bind R); [| intros ?]
      | |- respects ?R (try_except _ _) =>
          apply (respects_try_except R); [| intros ?]
      | |- respects ?R (for_each _ _) => apply (respects_for_each R); intros ?
      | |- respects ?R (for_each_with _ _ _) =>
          apply (respects_for_each_with R); intros ? ?
      | |- respects _ (if ?b then _ else _) => destruct b
      | |- respects _ (match ?o with Some _ => _ | None => _ end) => destruct o
      end
    | leaf ].

Lemma item_try_same_files E self ct pn item :
  respects same_files (item_try E self ct pn item).
Proof. unfold item_try. walk ltac:(by prim). Qed.

Lemma combination_body_same_files E self max_pages cb total ct idx provider :
  respects same_files (combination_body E self max_pages cb total ct idx provider).
Proof.
  unfold combination_body, combination_try, page_body, item_body.
  walk ltac:(first [apply item_try_same_files | by prim]).
Qed.

(** The two loops read and write no file. *)
Lemma aggregate_same_files E self max_pages cb :
  respects same_files (aggregate E self max_pages cb).
Proof.
  unfold aggregate. walk ltac:(apply combination_body_same_files).
Qed.

(** ** The shape of a run of [build_content_database] *)

Lemma build_content_database_run E self max_pages cb s :
  let s1 := after_aggregate E self max_pages cb s in
  build_content_database E self max_pages cb s =
    (Returns (all_content s1, snapshot_name E),
     {| trace := trace s1;
        files := <[snapshot_name E := to_csv E (all_content s1)]> (files s);
        all_content := all_content s1 |}).
Proof.
  intros s1.
  pose proof (aggregate_same_files E self max_pages cb
                {| trace := trace s; files := files s; all_content := [] |})
    as Hfiles.
  unfold same_files in Hfiles. simpl in Hfiles. fold s1 in Hfiles.
  unfold build_content_database, all_content_new, mbind, M_bind.
  destruct (aggregate_returns E self max_pages cb
              {| trace := trace s; files := files s; all_content := [] |})
    as (idx & s' & Hrun).
  subst s1. unfold after_aggregate in *. rewrite Hrun in *. simpl in *.
  unfold snapshot_name. by rewrite Hfiles.
Qed.

(** With every outbound call failing, a combination appends nothing. *)
Lemma combination_body_offline E self max_pages cb total ct idx provider :
  (∀ h r, returned (http_get E h r) = false) →
  respects same_rows
    (combination_body E self max_pages cb total ct idx provider).
Proof.
  intros Hdown s.
  unfold combination_body, try_except, combination_try,
    get_streaming_content, requests_get_json, mbind, M_bind, print, emit.
  simpl.
  specialize (Hdown (trace s)
    (Discover (tmdb_api_key self) ct provider.1 (region self) 1)).
  destruct (http_get E _ _); [discriminate | reflexivity].
Qed.

Lemma aggregate_offline E self max_pages cb :
  (∀ h r, returned (http_get E h r) = false) →
  respects same_rows (aggregate E self max_pages cb).
Proof.
  intros Hdown. unfold aggregate.
  walk ltac:(by apply combination_body_offline).
Qed.


(** * Properties of the fetcher *)

(** ** What makes the engine raise *)

(** Where pandas and the disk accept every table, the function is the one
    of [Fetcher]. *)
Lemma build_content_database_reliable E self max_pages cb s :
  Fallible.build_content_database E reliable self max_pages cb s
  = build_content_database E self max_pages cb s.
Proof.
  unfold Fallible.build_content_database, build_content_database,
    Fallible.pd_DataFrame, Fallible.df_to_csv, df_to_csv, lift, mbind, M_bind.
  simpl. by repeat case_match.
Qed.

(** C2, as the code has it: no outbound call and no callback makes
    [build_content_database] raise.  The two loops run to their end
    whatever the calls and the callback do, and with every outbound call
    failing they collect no row.  The function raises when [pd.DataFrame]
    or [df.to_csv] (lines 132-137, outside both [try] blocks) raises, with
    that exception, and returns the rows and the snapshot's name
    otherwise. *)
Theorem build_content_database_raises_only_when_saving
    E P self max_pages cb s :
  (∃ provider_idx,
     aggregate E self max_pages cb (before_aggregate s)
     = (Returns provider_idx, after_aggregate E self max_pages cb s))
  ∧ (Fallible.build_content_database E P self max_pages cb s).1
    = match refusal P (files s)
              (all_content (after_aggregate E self max_pages cb s))
              (snapshot_name E) with
      | Some e => Raises e
      | None =>
          Returns (all_content (after_aggregate E self max_pages cb s),
                   snapshot_name E)
      end
  ∧ ((∀ h r, returned (http_get E h r) = false) →
     all_content (after_aggregate E self max_pages cb s) = []).
Proof.
  pose proof (aggregate_same_files E self max_pages cb (before_aggregate s))
    as Hfiles.
  destruct (aggregate_returns E self max_pages cb (before_aggregate s))
    as (idx & s' & Hrun).
  unfold same_files in Hfiles. rewrite Hrun in Hfiles. simpl in Hfiles.
  assert (after_aggregate E self max_pages cb s = s') as Hafter.
  { unfold after_aggregate. fold (before_aggregate s). by rewrite Hrun. }
  rewrite Hafter. split; [by exists idx |]. split.
  - unfold Fallible.build_content_database, all_content_new, mbind, M_bind.
    fold (before_aggregate s). rewrite Hrun.
    unfold get_all_content, Fallible.pd_DataFrame, Fallible.df_to_csv, lift,
      refusal, snapshot_name, mret, M_ret.
    rewrite Hfiles.
    destruct (DataFrame_raises P (all_content s')) as [e |]; [done |].
    by destruct (to_csv_raises P (files s) (all_content s') _)
      as [[e partial] |].
  - intros Hdown.
    pose proof (aggregate_offline E self max_pages cb Hdown
                  (before_aggregate s)) as Hrows.
    unfold same_rows in Hrows. by rewrite Hrun in Hrows.
Qed.

Lemma build_content_database_raises_only_when_saving_offline :
  (Fallible.build_content_database offline reliable
     (StreamingDataFetcher_init "" "") 2 None empty_directory).1
  = Returns ([], "streaming_content_20240601_000000.csv").
Proof.
  destruct (build_content_database_raises_only_when_saving offline reliable
              (StreamingDataFetcher_init "" "") 2 None empty_directory)
    as (_ & -> & ->); [reflexivity |].
  intros h r. reflexivity.
Defined.

(** C2 as stated fails: with every outbound call failing and the
    snapshot's name taken by a directory, the exception of [df.to_csv]
    leaves the function. *)
Lemma build_content_database_save_refused :
  (∀ h r, returned (http_get offline h r) = false)
  ∧ (Fallible.build_content_database offline name_is_directory
       (StreamingDataFetcher_init "k1" "k2") 2 None empty_directory).1
    = Raises IsADirectoryError.
Proof. split; [done |]. vm_compute. reflexivity. Qed.

(** ** Where the snapshot is written *)



(** ** Credentials *)




(** ** Choosing the snapshot to load *)

Lemma string_app_cons a (s t : string) : String a s +:+ t = String a (s +:+ t).
Proof. reflexivity. Qed.

Lemma startswith_spec s pre : startswith s pre = true ↔ ∃ t, s = pre +:+ t.
Proof.
  unfold startswith. revert s. induction pre as [|a pre IH]; intros s.
  - simpl. destruct s; (split; [intros _; by eexists | done]).
  - destruct s as [|b s]; simpl.
    + split; [done | intros (t & Ht); by rewrite string_app_cons in Ht].
    + destruct (Ascii.ascii_dec a b) as [->|Hne].
      * rewrite IH. split; intros (t & Ht); exists t.
        -- by rewrite string_app_cons, <- Ht.
        -- rewrite string_app_cons in Ht. by injection Ht.
      * split; [done |]. intros (t & Ht).
        rewrite string_app_cons in Ht. by injection Ht.
Qed.

Lemma string_app_assoc (s1 s2 s3 : string) :
  (s1 +:+ s2) +:+ s3 = s1 +:+ (s2 +:+ s3).
Proof.
  induction s1 as [|a s1 IH]; [done |].
  by rewrite !string_app_cons, IH.
Qed.

Lemma string_app_nil_r (s : string) : s +:+ "" = s.
Proof.
  induction s as [|a s IH]; [done |].
  by rewrite string_app_cons, IH.
Qed.

Lemma rev_app_spec s1 s2 : String.rev_app s1 s2 = String.rev s1 +:+ s2.
Proof.
  unfold String.rev. revert s2.
  induction s1 as [|a s1 IH]; intros s2; simpl; [done |].
  by rewrite (IH (String a "")), IH, string_app_assoc.
Qed.

Lemma string_rev_cons a s : String.rev (String a s) = String.rev s +:+ String a "".
Proof. unfold String.rev at 1. simpl. apply rev_app_spec. Qed.

Lemma string_rev_app s1 s2 :
  String.rev (s1 +:+ s2) = String.rev s2 +:+ String.rev s1.
Proof.
  induction s1 as [|a s1 IH].
  - by rewrite string_app_nil_r.
  - by rewrite string_app_cons, !string_rev_cons, IH, string_app_assoc.
Qed.

Lemma string_rev_involutive s : String.rev (String.rev s) = s.
Proof.
  induction s as [|a s IH]; [done |].
  by rewrite string_rev_cons, string_rev_app, IH.
Qed.

Lemma endswith_spec s suf : endswith s suf = true ↔ ∃ t, s = t +:+ suf.
Proof.
  unfold endswith.
  rewrite (startswith_spec (String.rev s) (String.rev suf)). split.
  - intros (t & Ht). exists (String.rev t).
    rewrite <- (string_rev_involutive s), Ht, string_rev_app.
    by rewrite string_rev_involutive.
  - intros (t & ->). exists (String.rev t). apply string_rev_app.
Qed.

(** A snapshot name is [streaming_content_] followed by anything, and
    anything followed by [.csv]. *)
Lemma is_snapshot_name_spec f :
  is_snapshot_name f = true ↔
  (∃ t, f = "streaming_content_" +:+ t) ∧ (∃ t, f = t +:+ ".csv").
Proof.
  unfold is_snapshot_name.
  by rewrite andb_true_iff, startswith_spec, endswith_spec.
Qed.

Lemma elem_of_csv_files s f :
  f ∈ csv_files s ↔ is_Some (files s !! f) ∧ is_snapshot_name f = true.
Proof.
  unfold csv_files. rewrite list_elem_of_In, filter_In, <- list_elem_of_In.
  rewrite list_elem_of_fmap. split.
  - intros [([f' text] & -> & Hin) Hname]. split; [| done].
    apply elem_of_map_to_list in Hin. by exists text.
  - intros [[text Hin] Hname]. split; [| done].
    exists (f, text). split; [done | by apply elem_of_map_to_list].
Qed.

(** In a list where every element is below all later ones, the last element
    is above all. *)
Lemma StronglySorted_last {A} (R : relation A) `{!Reflexive R} l x :
  StronglySorted R l → last l = Some x → ∀ y, y ∈ l → R y x.
Proof.
  intros Hsorted. revert x.
  induction Hsorted as [|a l Hsorted IH Hall]; intros x Hlast y Hy.
  - done.
  - destruct l as [|b l].
    + simpl in Hlast. apply list_elem_of_singleton in Hy. by simplify_eq.
    + rewrite last_cons_cons in Hlast.
      apply elem_of_cons in Hy as [-> | Hy]; [| by eapply IH].
      rewrite Forall_forall in Hall. by apply Hall, last_Some_elem_of.
Qed.

(** [sorted(l)[-1]] is the greatest element of a non-empty [l]. *)
Lemma py_last_sorted l :
  l ≠ [] →
  ∃ latest, py_last (sorted l) = Returns latest
            ∧ latest ∈ l ∧ ∀ f, f ∈ l → String.le f latest.
Proof.
  intros Hne. unfold py_last, sorted.
  destruct (last (merge_sort String.le l)) as [latest|] eqn:Hlast.
  - exists latest. split; [done |].
    pose proof (merge_sort_Permutation String.le l) as Hperm.
    split.
    + rewrite <- Hperm. by apply last_Some_elem_of.
    + intros f Hf. rewrite <- Hperm in Hf.
      eapply (StronglySorted_last String.le); [| done | done].
      apply (StronglySorted_merge_sort String.le).
  - apply last_None in Hlast.
    pose proof (merge_sort_Permutation String.le l) as Hperm.
    rewrite Hlast in Hperm. by apply Permutation_nil_l in Hperm.
Qed.

(** The loading branch: the greatest snapshot name is read, nothing else
    happens. *)
Lemma load_or_create_database_load E tmdb_key omdb_key max_pages cb s :
  csv_files s ≠ [] →
  ∃ latest text,
    files s !! latest = Some text
    ∧ is_snapshot_name latest = true
    ∧ (∀ f, is_Some (files s !! f) → is_snapshot_name f = true →
            String.le f latest)
    ∧ load_or_create_database E tmdb_key omdb_key false max_pages cb s
      = (outcome_map (λ df, (df, latest)) (read_csv E text), s).
Proof.
  intros Hne.
  destruct (py_last_sorted (csv_files s) Hne) as (latest & Hlast & Hin & Hmax).
  apply elem_of_csv_files in Hin as [[text Htext] Hname].
  exists latest, text. repeat split; [done | done | |].
  - intros f Hf Hfname. apply Hmax, elem_of_csv_files. done.
  - unfold load_or_create_database, os_listdir, mbind, M_bind.
    fold (csv_files s). destruct (csv_files s) eqn:Hfiles; [done |].
    simpl. unfold lift. rewrite Hlast.
    unfold pd_read_csv. rewrite Htext. by destruct (read_csv E text).
Qed.

(** C9: without [force_refresh] and with at least one snapshot name in the
    directory, [load_or_create_database] reads the file whose name is the
    greatest snapshot name and returns [read_csv]'s table with that name;
    the state is the one it started in, so no request was sent and nothing
    was written. *)
Theorem load_or_create_database_reuses_latest
    E tmdb_key omdb_key max_pages cb s :
  csv_files s ≠ [] →
  ∃ latest text,
    files s !! latest = Some text
    ∧ is_snapshot_name latest = true
    ∧ (∀ f, is_Some (files s !! f) → is_snapshot_name f = true →
            String.le f latest)
    ∧ load_or_create_database E tmdb_key omdb_key false max_pages cb s
      = (outcome_map (λ df, (df, latest)) (read_csv E text), s).
Proof. apply load_or_create_database_load. Qed.

Lemma load_or_create_database_reuses_latest_two_snapshots :
  ∃ latest text,
    files two_snapshots_directory !! latest = Some text
    ∧ is_snapshot_name latest = true
    ∧ (∀ f, is_Some (files two_snapshots_directory !! f) →
            is_snapshot_name f = true → String.le f latest)
    ∧ load_or_create_database offline "k1" "k2" false 2 None
        two_snapshots_directory
      = (outcome_map (λ df, (df, latest)) (read_csv offline text),
         two_snapshots_directory).
Proof.
  apply (load_or_create_database_reuses_latest offline "k1" "k2" 2 None
           two_snapshots_directory).
  vm_compute. discriminate.
Defined.

(** ** A snapshot that cannot be loaded *)

(** C5, as the code has it: without [force_refresh], when the greatest
    snapshot name is found and reading it raises, [load_or_create_database]
    raises that exception and stops in the state it started in: no rebuild,
    no request, no new file. *)
Theorem load_or_create_database_load_error_propagates
    E tmdb_key omdb_key max_pages cb s latest text e :
  files s !! latest = Some text →
  is_snapshot_name latest = true →
  (∀ f, is_Some (files s !! f) → is_snapshot_name f = true →
        String.le f latest) →
  read_csv E text = Raises e →
  load_or_create_database E tmdb_key omdb_key false max_pages cb s
    = (Raises e, s).
Proof.
  intros Htext Hname Hmax Hread.
  assert (csv_files s ≠ []) as Hne.
  { intros Hnil.
    assert (latest ∈ csv_files s) as Hin by by apply elem_of_csv_files.
    rewrite Hnil in Hin. by apply elem_of_nil in Hin. }
  destruct (load_or_create_database_load E tmdb_key omdb_key max_pages cb s Hne)
    as (latest' & text' & Htext' & Hname' & Hmax' & ->).
  assert (latest' = latest) as ->.
  { apply (anti_symm String.le); [apply Hmax | apply Hmax']; done. }
  simplify_eq. by rewrite Hread.
Qed.

Lemma load_or_create_database_load_error_propagates_empty_file :
  load_or_create_database offline "k1" "k2" false 2 None
    empty_snapshot_directory
  = (Raises EmptyDataError, empty_snapshot_directory).
Proof.
  apply (load_or_create_database_load_error_propagates offline "k1" "k2" 2 None
           empty_snapshot_directory "streaming_content_20240101_010101.csv" "").
  - reflexivity.
  - reflexivity.
  - intros f [text Hf] _.
    destruct (decide (f = "streaming_content_20240101_010101.csv")) as [->|Hne].
    + reflexivity.
    + unfold empty_snapshot_directory in Hf. simpl in Hf.
      by rewrite lookup_singleton_ne in Hf.
  - reflexivity.
Defined.

(** C5 as stated fails: with an unreadable snapshot in the directory the call
    raises; it sends no request and writes no new snapshot. *)
Lemma load_or_create_database_does_not_rebuild :
  let run := load_or_create_database offline "k1" "k2" false 2 None
               empty_snapshot_directory in
  returned run.1 = false
  ∧ trace run.2 = []
  ∧ files run.2 !! "streaming_content_20240601_000000.csv" = None.
Proof. vm_compute. repeat split; reflexivity. Qed.

(** ** The rows of a combination *)

Lemma assoc_get_set_ne {V} (k k' : string) (v : V) d :
  k ≠ k' → assoc_get k (assoc_set k' v d) = assoc_get k d.
Proof.
  intros Hne. induction d as [|[k0 v0] d IH]; simpl.
  - destruct (String.eqb_spec k' k); congruence.
  - destruct (String.eqb_spec k0 k'); simpl.
    + destruct (String.eqb_spec k0 k); congruence.
    + by rewrite IH.
Qed.

Lemma row_of_set label name k v row :
  k ≠ "type" → k ≠ "provider" → k ≠ "title" → k ≠ "tmdb_id" →
  row_of label name row → row_of label name (assoc_set k v row).
Proof.
  intros ? ? ? ? (Htype & Hprov & Htitle & Hid).
  unfold row_of. by rewrite !assoc_get_set_ne.
Qed.

(** Leaves that do not touch [all_content]. *)
Ltac prim_rows :=
  prim; (exists []; split; [by rewrite app_nil_r | by constructor]).

(** A discover entry contributes at most one row, and the row carries the
    category and the provider of the combination being processed. *)
Lemma item_try_rows E self ct pn item :
  respects (rows_grow (row_of (label_of ct) pn)) (item_try E self ct pn item).
Proof.
  set (R := rows_grow (row_of (label_of ct) pn)).
  unfold item_try.
  (* up to [has_genres]: nothing is appended *)
  do 11 (apply (respects_bind R); [by walk prim_rows | intros ?]).
  (* the dict literal, with or without [genres] *)
  apply (respects_bind_ensures R (row_of (label_of ct) pn)).
  { match goal with |- ensures _ _ (if ?b then _ else _) => destruct b end.
    - do 4 (apply (ensures_bind R); [apply (respects_lift R) | intros ?]).
      apply (ensures_ret R). apply row_of_set; [done..|].
      unfold row_of, label_of. simpl. eauto.
    - apply (ensures_ret R). unfold row_of, label_of. simpl. eauto. }
  intros info Hinfo.
  (* the two rating fields *)
  apply (respects_bind_ensures R (row_of (label_of ct) pn)).
  { match goal with |- ensures _ _ (if ?b then _ else _) => destruct b end.
    - apply (ensures_bind R); [by walk prim_rows | intros ?].
      do 2 (apply (ensures_bind R); [apply (respects_lift R) | intros ?]).
      apply (ensures_ret R). by do 2 (apply row_of_set; [done..|]).
    - apply (ensures_ret R). by do 2 (apply row_of_set; [done..|]). }
  (* [all_content.append] *)
  intros info' Hinfo' s. unfold all_content_append. simpl.
  exists [info']. split; [done | by constructor].
Qed.

Lemma combination_body_rows E self max_pages cb total ct idx provider :
  respects (rows_grow (row_of (label_of ct) provider.2))
    (combination_body E self max_pages cb total ct idx provider).
Proof.
  unfold combination_body, combination_try, page_body, item_body.
  walk ltac:(first [apply item_try_rows | prim_rows]).
Qed.

(** A loop whose turns each append one block appends the blocks in the order
    of the list it runs over. *)
Lemma for_each_with_blocks {A V} (B : A → list dict → Prop) (l : list A)
    (body : V → A → M V) :
  (∀ v x, returns (body v x)) →
  (∀ v x s, ∃ block,
      all_content (body v x s).2 = all_content s ++ block ∧ B x block) →
  ∀ v s, ∃ blocks,
    all_content (for_each_with l v body s).2 = all_content s ++ concat blocks
    ∧ Forall2 B l blocks.
Proof.
  intros Hret Hbody. induction l as [|x l IH]; intros v s; simpl.
  - exists []. split; [by rewrite app_nil_r | constructor].
  - unfold mbind, M_bind.
    destruct (Hbody v x s) as (block & Hblock & HB).
    destruct (Hret v x s) as (v' & s1 & Hrun). rewrite Hrun in *. simpl in *.
    destruct (IH v' s1) as (blocks & Hblocks & HBs).
    exists (block :: blocks). split; [| by constructor].
    by rewrite Hblocks, Hblock, <- app_assoc.
Qed.

Lemma providers_loop_blocks E self max_pages cb total ct idx s :
  ∃ blocks,
    all_content
      (for_each_with (providers self) idx
         (combination_body E self max_pages cb total ct) s).2
    = all_content s ++ concat blocks
    ∧ blocks_of (label_of ct) (providers self).*2 blocks.
Proof.
  destruct (for_each_with_blocks
              (λ p block, Forall (row_of (label_of ct) p.2) block)
              (providers self)
              (combination_body E self max_pages cb total ct))
    with (v := idx) (s := s) as (blocks & Hrows & Hblocks).
  - intros v x. apply combination_body_returns.
  - intros v x s0. apply combination_body_rows.
  - exists blocks. split; [done |].
    unfold blocks_of. by apply Forall2_fmap_l.
Qed.

(** The table is the movies' blocks followed by the TV shows' blocks. *)
Lemma aggregate_blocks E self max_pages cb s :
  ∃ movies tv_shows,
    all_content (aggregate E self max_pages cb s).2
    = all_content s ++ concat movies ++ concat tv_shows
    ∧ blocks_of "Movie" (providers self).*2 movies
    ∧ blocks_of "TV Show" (providers self).*2 tv_shows.
Proof.
  unfold aggregate, content_types. simpl. unfold mbind, M_bind.
  set (total := Z.of_nat (length (providers self))).
  destruct (providers_loop_blocks E self max_pages cb total "movie" 0 s)
    as (movies & Hmovies & Hblocks1).
  destruct (returns_for_each_with (providers self)
              (combination_body E self max_pages cb total "movie")
              (λ v x, combination_body_returns E self max_pages cb total
                        "movie" v x) 0 s)
    as (idx1 & s1 & Hrun1).
  rewrite Hrun1 in *. simpl in *.
  destruct (providers_loop_blocks E self max_pages cb total "tv" idx1 s1)
    as (tv_shows & Htv & Hblocks2).
  destruct (returns_for_each_with (providers self)
              (combination_body E self max_pages cb total "tv")
              (λ v x, combination_body_returns E self max_pages cb total
                        "tv" v x) idx1 s1)
    as (idx2 & s2 & Hrun2).
  rewrite Hrun2 in *. simpl in *.
  exists movies, tv_shows. split; [| done].
  by rewrite Htv, Hmovies, <- app_assoc.
Qed.

Lemma build_content_database_blocks E self max_pages cb s :
  ∃ movies tv_shows,
    (build_content_database E self max_pages cb s).1
    = Returns (concat movies ++ concat tv_shows, snapshot_name E)
    ∧ blocks_of "Movie" (providers self).*2 movies
    ∧ blocks_of "TV Show" (providers self).*2 tv_shows.
Proof.
  rewrite build_content_database_run. simpl. unfold after_aggregate.
  destruct (aggregate_blocks E self max_pages cb
              {| trace := trace s; files := files s; all_content := [] |})
    as (movies & tv_shows & Hrows & Hm & Ht).
  exists movies, tv_shows. by rewrite Hrows.
Qed.

Lemma blocks_of_elem label names blocks row :
  blocks_of label names blocks → row ∈ concat blocks →
  ∃ name, name ∈ names ∧ row_of label name row.
Proof.
  intros Hblocks Hrow. unfold blocks_of in Hblocks.
  induction Hblocks as [|name block names blocks Hblock Hrest IH];
    simpl in Hrow.
  - by apply elem_of_nil in Hrow.
  - apply elem_of_app in Hrow as [Hrow | Hrow].
    + rewrite Forall_forall in Hblock. exists name.
      split; [apply elem_of_cons; by left | by apply Hblock].
    + destruct (IH Hrow) as (name' & Hin & Hok). exists name'.
      split; [apply elem_of_cons; by right | done].
Qed.

(** ** Which fields are populated *)

(** C7, as the code has it: every row of the table carries a category that
    is the string Movie or TV Show and a provider that is one of the
    configured display names; the keys [title] and [tmdb_id] are present,
    with whatever value the discover entry had (possibly null). *)
Theorem build_content_database_rows_ok E self max_pages cb s :
  ∃ df,
    (build_content_database E self max_pages cb s).1
      = Returns (df, snapshot_name E)
    ∧ Forall (row_ok self) df.
Proof.
  destruct (build_content_database_blocks E self max_pages cb s)
    as (movies & tv_shows & -> & Hmovies & Htv).
  eexists. split; [done |].
  apply Forall_forall. intros row Hrow.
  apply elem_of_app in Hrow as [Hrow | Hrow].
  - destruct (blocks_of_elem _ _ _ _ Hmovies Hrow)
      as (name & Hin & Htype & Hprov & Htitle & Hid).
    unfold row_ok. eauto 10.
  - destruct (blocks_of_elem _ _ _ _ Htv Hrow)
      as (name & Hin & Htype & Hprov & Htitle & Hid).
    unfold row_ok. eauto 10.
Qed.

(** C7 as stated fails: a discover entry without a title yields a row whose
    title is null, and an entry whose identifier is null yields a row whose
    identifier is null. *)
Lemma build_content_database_null_title :
  ∃ df filename,
    (build_content_database bare_entries (StreamingDataFetcher_init "k1" "k2")
       1 None empty_directory).1 = Returns (df, filename)
    ∧ Exists (λ row, assoc_get "title" row = Some JNull
                     ∧ fully_populated row = false) df
    ∧ Exists (λ row, assoc_get "tmdb_id" row = Some JNull
                     ∧ fully_populated row = false) df.
Proof.
  eexists _, _. split; [vm_compute; reflexivity |]. split.
  - apply Exists_cons_hd. split; reflexivity.
  - apply Exists_cons_tl, Exists_cons_hd. split; reflexivity.
Qed.

(** ** The order of the rows *)

(** C10: the table of the stock fetcher is a block of rows per provider for
    the movies, in the order Netflix, Apple TV, Amazon Prime, Disney+,
    HBO Max, Hulu, followed by a block per provider for the TV shows in the
    same order (a block may be empty). *)
Theorem build_content_database_catalogue_order
    E tmdb_key omdb_key max_pages cb s :
  ∃ movies tv_shows,
    (build_content_database E (StreamingDataFetcher_init tmdb_key omdb_key)
       max_pages cb s).1
    = Returns (concat movies ++ concat tv_shows, snapshot_name E)
    ∧ blocks_of "Movie"
        ["Netflix"; "Apple TV"; "Amazon Prime"; "Disney+"; "HBO Max"; "Hulu"]
        movies
    ∧ blocks_of "TV Show"
        ["Netflix"; "Apple TV"; "Amazon Prime"; "Disney+"; "HBO Max"; "Hulu"]
        tv_shows.
Proof.
  apply (build_content_database_blocks E
           (StreamingDataFetcher_init tmdb_key omdb_key)).
Qed.

(** ** A failing enrichment call *)

(** Until its last statement, the body of the inner [try] leaves
    [all_content] alone; the last statement cannot raise. *)
Lemma item_try_on_raise E self ct pn item :
  on_raise same_rows (item_try E self ct pn item).
Proof.
  unfold item_try.
  repeat (apply (on_raise_bind same_rows); [by walk ltac:(by prim) | intros ?]).
  intros s e s' Hrun. unfold all_content_append in Hrun. discriminate.
Qed.

Lemma enrichment_fails_raises E self ct pn item s :
  enrichment_fails E self ct item s →
  ∃ e s', item_try E self ct pn item s = (Raises e, s').
Proof.
  intros [tmdb_id e Hid Hdetails
         | tmdb_id details e Hid Hdetails Hext
         | tmdb_id details external_ids imdb_id e Hid Hdetails Hext Himdb
             Htruthy Hrating];
    unfold item_try, mbind, M_bind, lift, get_content_details,
      get_external_ids, get_imdb_data, requests_get_json;
    rewrite Hid; simpl; rewrite Hdetails; simpl.
  - by eexists _, _.
  - rewrite Hext. by eexists _, _.
  - rewrite Hext, Himdb, Htruthy.
    destruct item; try discriminate. simpl.
    unfold mret, M_ret.
    repeat case_match; simplify_eq/=; try by eexists _, _.
    all: congruence.
Qed.

(** When the enrichment requests are answered without the fields asked
    for, the row is appended with its enrichment fields at their fallback. *)
Lemma enrichment_empty_appends E self ct pn item s :
  enrichment_empty E self ct item s →
  ∃ row s', item_try E self ct pn item s = (Returns (), s')
            ∧ all_content s' = all_content s ++ [row]
            ∧ fallback_row row.
Proof.
  intros [kv tmdb_id details external_ids imdb_id -> Hid Hdetails Hgenres
            Hext Himdb Htruthy
         | kv tmdb_id details external_ids imdb_id rating -> Hid Hdetails
             Hgenres Hext Himdb Htruthy Hrating Hno_rating Hno_votes];
    unfold item_try, mbind, M_bind, lift, get_content_details,
      get_external_ids, get_imdb_data, requests_get_json, py_getitem;
    rewrite Hid; simpl; rewrite Hdetails; simpl; rewrite Hext, Himdb, Hgenres,
      Htruthy; simpl.
  - eexists _, _. split; [reflexivity |]. split; [reflexivity |].
    unfold fallback_row. simpl. done.
  - rewrite Hrating. simpl. rewrite Hno_rating, Hno_votes. simpl.
    eexists _, _. split; [reflexivity |]. split; [reflexivity |].
    unfold fallback_row. simpl. done.
Qed.

(** C8, as the code has it: when an enrichment call for a discover entry
    raises, the entry is dropped: the loop turn for it returns normally, no
    row is appended and no file is touched, so the pass goes on with the
    next entry.  When the calls are answered without the fields asked for,
    the loop turn appends the row, without genres and with both rating
    fields at N/A. *)
Theorem item_body_failed_enrichment E self ct pn item s :
  (enrichment_fails E self ct item s →
   ∃ s', item_body E self ct pn item s = (Returns (), s')
         ∧ all_content s' = all_content s
         ∧ files s' = files s)
  ∧ (enrichment_empty E self ct item s →
     ∃ row s', item_body E self ct pn item s = (Returns (), s')
               ∧ all_content s' = all_content s ++ [row]
               ∧ fallback_row row).
Proof.
  split.
  - intros Hfails.
    destruct (enrichment_fails_raises E self ct pn item s Hfails)
      as (e & s1 & Hrun).
    pose proof (item_try_on_raise E self ct pn item s e s1 Hrun) as Hrows.
    pose proof (item_try_same_files E self ct pn item s) as Hfiles.
    rewrite Hrun in Hfiles. simpl in Hfiles.
    unfold item_body, try_except, mbind, M_bind. rewrite Hrun.
    eexists. split; [reflexivity |]. simpl. done.
  - intros Hempty.
    destruct (enrichment_empty_appends E self ct pn item s Hempty)
      as (row & s1 & Hrun & Hrows & Hrow).
    unfold item_body, try_except, mbind, M_bind. rewrite Hrun.
    eexists row, _. split; [reflexivity |]. simpl. done.
Qed.

Lemma item_body_failed_enrichment_matrix :
  (∃ s',
     item_body details_down (StreamingDataFetcher_init "k1" "k2") "movie"
       "Netflix" (JObj [("id", JInt 603); ("title", JStr "The Matrix")])
       empty_directory
     = (Returns (), s')
     ∧ all_content s' = all_content empty_directory
     ∧ files s' = files empty_directory)
  ∧ (∃ row s',
       item_body unauthorized (StreamingDataFetcher_init "" "") "movie"
         "Netflix" (JObj [("id", JInt 603); ("title", JStr "The Matrix")])
         empty_directory
       = (Returns (), s')
       ∧ all_content s' = all_content empty_directory ++ [row]
       ∧ fallback_row row).
Proof.
  split.
  - apply (item_body_failed_enrichment details_down
             (StreamingDataFetcher_init "k1" "k2") "movie" "Netflix"
             (JObj [("id", JInt 603); ("title", JStr "The Matrix")])
             empty_directory).
    by apply (details_fails _ _ _ _ _ (JInt 603) RequestException).
  - apply (item_body_failed_enrichment unauthorized
             (StreamingDataFetcher_init "" "") "movie" "Netflix"
             (JObj [("id", JInt 603); ("title", JStr "The Matrix")])
             empty_directory).
    by apply (no_imdb_id _ _ _ _ _
                [("id", JInt 603); ("title", JStr "The Matrix")]
                (JInt 603) invalid_key_body invalid_key_body JNull).
Defined.

(** C8 as stated fails: twelve discover entries are received, the detail
    lookup is sent and fails for each, and no row is emitted for any of
    them. *)
Lemma build_content_database_details_down :
  let run := build_content_database details_down
               (StreamingDataFetcher_init "k1" "k2") 1 None empty_directory in
  run.1 = Returns ([], "streaming_content_20240601_000000.csv")
  ∧ length (List.filter
              (λ ev, match ev with EGet (Details _ _ _) => true | _ => false end)
              (trace run.2)) = 12%nat.
Proof. vm_compute. split; reflexivity. Qed.

(** ** How many pages a combination processes *)

Lemma pages_completed_app evs1 evs2 :
  pages_completed (evs1 ++ evs2)
  = (pages_completed evs1 + pages_completed evs2)%nat.
Proof. unfold pages_completed. by rewrite List.filter_app, length_app. Qed.

Lemma closes_pages_trans n1 n2 s1 s2 s3 :
  closes_pages n1 s1 s2 → closes_pages n2 s2 s3 →
  closes_pages (n1 + n2) s1 s3.
Proof.
  intros (evs1 & Ht1 & Hn1) (evs2 & Ht2 & Hn2). exists (evs1 ++ evs2).
  split; [by rewrite Ht2, Ht1, app_assoc |].
  by rewrite pages_completed_app, Hn1, Hn2.
Qed.

(** Growing by events that are no page pause closes no page. *)
Lemma trace_grows_closes_none s s' :
  trace_grows (λ ev, is_page_sleep ev = false) s s' → closes_pages 0 s s'.
Proof.
  intros (evs & Ht & Hall). exists evs. split; [done |].
  unfold pages_completed. clear Ht.
  induction Hall as [|ev evs Hev Hall IH]; [done |].
  simpl. by rewrite Hev.
Qed.

(** Leaves that log at most one event. *)
Ltac prim_trace :=
  prim;
  first [ by (exists []; rewrite app_nil_r)
        | by (eexists [_]; split; [reflexivity | repeat constructor]) ].

Lemma item_body_no_page_sleep E self ct pn item :
  respects (trace_grows (λ ev, is_page_sleep ev = false))
    (item_body E self ct pn item).
Proof. unfold item_body, item_try. walk prim_trace. Qed.

Lemma closes_a_page_bind {A B} (m : M A) (f : A → M B) :
  respects (trace_grows (λ ev, is_page_sleep ev = false)) m →
  (∀ a, closes_a_page (f a)) → closes_a_page (m ≫= f).
Proof.
  intros Hm Hf s. specialize (Hm s). apply trace_grows_closes_none in Hm.
  unfold mbind, M_bind. destruct (m s) as [[a|e] s1]; simpl in *.
  - apply (closes_pages_trans 0 _ s s1); [exact Hm | apply Hf].
  - exact Hm.
Qed.

Lemma page_body_closes_a_page E self cb ct pid pn idx total initial_data
    total_pages page :
  closes_a_page
    (page_body E self cb ct pid pn idx total initial_data total_pages page).
Proof.
  unfold page_body.
  repeat (apply closes_a_page_bind;
          [by (unfold item_body, item_try; walk prim_trace) | intros ?]).
  intros s. unfold time_sleep, emit. simpl.
  exists [ESleep 1]. done.
Qed.

(** The page loop closes at most one page per turn, and exactly one per
    turn when it runs to its end. *)
Lemma for_each_pages_closes (pages : list Z) (body : Z → M unit) :
  (∀ page, closes_a_page (body page)) →
  ∀ s, ∃ n, closes_pages n s (for_each pages body s).2
            ∧ (n ≤ length pages)%nat
            ∧ (returned (for_each pages body s).1 = true → n = length pages).
Proof.
  intros Hbody. induction pages as [|page pages IH]; intros s; simpl.
  - exists 0%nat. split; [| done]. exists []. by rewrite app_nil_r.
  - unfold mbind, M_bind. specialize (Hbody page s).
    destruct (body page s) as [[[]|e] s1]; simpl in *.
    + destruct (IH s1) as (n & Hn & Hle & Hex). exists (1 + n)%nat.
      split; [by apply (closes_pages_trans 1 n s s1) |].
      split; [lia | intros Hret; by rewrite Hex].
    + exists 0%nat. split; [done |]. split; [lia | done].
Qed.

Lemma py_min_int reported max_pages :
  py_min (JInt reported) max_pages = Returns (JInt (Z.min reported max_pages)).
Proof.
  unfold py_min. destruct (Z.ltb_spec max_pages reported); do 2 f_equal; lia.
Qed.

Lemma progress_returns cb message idx total :
  callback_quiet cb → total ≠ 0 →
  returns
    match cb with
    | Some f =>
        overall_progress ← lift (py_truediv (idx - 1) total);
        call_progress f message overall_progress
    | None => mret ()
    end.
Proof.
  intros Hquiet Htotal s. destruct cb as [f|]; [| by eexists _, _].
  unfold mbind, M_bind, lift, py_truediv, call_progress.
  destruct (Z.eqb_spec total 0) as [|_]; [done |].
  simpl in Hquiet. rewrite Hquiet. by eexists _, _.
Qed.

(** With readable pages and a quiet callback a page is processed to its
    end. *)
Lemma page_body_returns E self cb ct pid pn idx total initial_data
    total_pages page :
  callback_quiet cb → total ≠ 0 →
  page_readable (Returns initial_data) →
  (∀ h p, page_readable
            (http_get E h (Discover (tmdb_api_key self) ct pid (region self) p))) →
  returns
    (page_body E self cb ct pid pn idx total initial_data total_pages page).
Proof.
  intros Hquiet Htotal Hinitial Hpages s. unfold page_body.
  unfold mbind at 1. unfold M_bind at 1.
  destruct (progress_returns cb
              ("Processing " +:+ pn +:+ " " +:+ ct +:+ "s - page "
                 +:+ pretty page +:+ "/" +:+ py_str total_pages)
              idx total Hquiet Htotal s) as ([] & s1 & ->).
  assert (∃ data results items s2,
            (if 1 <? page then get_streaming_content E self ct pid page
             else mret initial_data) s1 = (Returns data, s2)
            ∧ py_get data "results" (JArr []) = Returns results
            ∧ py_iter results = Returns items)
    as (data & results & items & s2 & Hdata & Hresults & Hitems).
  { destruct (1 <? page).
    - destruct (Hpages (trace s1) page) as (d & r & i & Hd & Hr & Hi).
      unfold get_streaming_content, requests_get_json. rewrite Hd.
      by eexists d, r, i, _.
    - destruct Hinitial as (d & r & i & [= <-] & Hr & Hi).
      by eexists initial_data, r, i, s1. }
  unfold mbind, M_bind, lift. rewrite Hdata, Hresults, Hitems.
  destruct (returns_for_each items (item_body E self ct pn)
              (item_body_returns E self ct pn) s2) as ([] & s3 & ->).
  unfold time_sleep, emit. by eexists _, _.
Qed.

(** C6, as the code has it: when the first discover call of a combination
    reports an integer [total_pages], at most [min(total_pages, max_pages)]
    pages are processed to their end, and exactly that many (none when the
    minimum is not positive) when no page fails: every discover answer of
    the combination is readable and the callback does not raise. *)
Theorem combination_pages_clamped
    E self max_pages cb total ct idx pid pn s data reported :
  http_get E (trace s) (Discover (tmdb_api_key self) ct pid (region self) 1)
    = Returns data →
  py_get data "total_pages" (JInt 1) = Returns (JInt reported) →
  let s' := (combination_body E self max_pages cb total ct idx (pid, pn) s).2 in
  (pages_completed (new_events s s') ≤ Z.to_nat (Z.min reported max_pages))%nat
  ∧ (callback_quiet cb → total ≠ 0 →
     (∀ h page, page_readable
                  (http_get E h
                     (Discover (tmdb_api_key self) ct pid (region self) page))) →
     pages_completed (new_events s s') = Z.to_nat (Z.min reported max_pages)).
Proof.
  intros Hinit Hreported.
  unfold combination_body, try_except, combination_try,
    get_streaming_content, requests_get_json, mbind, M_bind, lift.
  simpl. rewrite Hinit, Hreported, py_min_int. simpl.
  set (s0 := {| trace := trace s ++ [EGet _]; files := files s;
                all_content := all_content s |}).
  set (body := page_body E self cb ct pid pn (idx + 1) total data
                 (JInt (Z.min reported max_pages))).
  set (pages := seqZ 1 (Z.min reported max_pages)).
  assert (length pages = Z.to_nat (Z.min reported max_pages)) as Hlen
    by apply length_seqZ.
  destruct (for_each_pages_closes pages body
              (page_body_closes_a_page E self cb ct pid pn (idx + 1) total data
                 (JInt (Z.min reported max_pages))) s0)
    as (n & (evs & Htrace & Hcount) & Hle & Hexact).
  assert (pages_completed
            (new_events s
               (match for_each pages body s0 with
                | (Returns _, s1) => (Returns (), s1)
                | (Raises e, s1) =>
                    print ("Error processing " +:+ pn +:+ " " +:+ ct +:+ ": ")
                      e s1
                end).2) = n) as Hn.
  { unfold new_events.
    destruct (for_each pages body s0) as [[[]|e] s1]; simpl in *;
      rewrite Htrace; unfold s0; simpl;
      rewrite <- !app_assoc, drop_app_length, !pages_completed_app, Hcount;
      unfold pages_completed; simpl; lia. }
  split.
  - destruct (for_each pages body s0) as [[[]|e] s1]; simpl in *; lia.
  - intros Hquiet Htotal Hpages.
    assert (returns (for_each pages body)) as Hret.
    { apply returns_for_each. intros page.
      apply page_body_returns; [done | done | | done].
      specialize (Hpages (trace s) 1). by rewrite Hinit in Hpages. }
    destruct (Hret s0) as ([] & s1 & Hrun). rewrite Hrun in *. simpl in *.
    rewrite Hn, <- Hlen. by apply Hexact.
Qed.

(** The scenario of the specification: one combination, [max_pages = 1], a
    catalogue that announces three pages; one page is processed. *)
Lemma combination_pages_clamped_scenario :
  let s' := (combination_body three_pages (StreamingDataFetcher_init "k1" "k2")
               1 (Some quiet) 1 "movie" 0 (8, "Netflix") empty_directory).2 in
  (pages_completed (new_events empty_directory s') ≤ 1)%nat
  ∧ pages_completed (new_events empty_directory s') = 1%nat.
Proof.
  destruct (combination_pages_clamped three_pages
              (StreamingDataFetcher_init "k1" "k2") 1 (Some quiet) 1 "movie" 0
              8 "Netflix" empty_directory three_pages_answer 3)
    as [Hbound Hexact]; [reflexivity | reflexivity |].
  split; [exact Hbound |].
  apply Hexact; [done | done |].
  intros h page. by eexists _, _, _.
Defined.

(** C6 as stated fails: three pages are announced and allowed, the request
    for the second page raises; the second page is begun and abandoned, the
    third is never begun, and one page is processed to its end. *)
Lemma combination_stops_at_failed_page :
  let s' := (combination_body first_page_only
               (StreamingDataFetcher_init "k1" "k2") 3 (Some quiet) 6 "movie" 0
               (8, "Netflix") empty_directory).2 in
  Z.min 3 3 = 3
  ∧ pages_completed (new_events empty_directory s') = 1%nat
  ∧ pages_started (new_events empty_directory s') = 2%nat.
Proof. vm_compute. repeat split; reflexivity. Qed.

(** ** The progress fraction *)

(** C1 fails on the code: with the stock table of six providers and every
    combination reaching its page loop, the callback receives
    [(provider_idx - 1) / 6] with [provider_idx] running from 1 to 12 over
    both content types, so the fractions sent for the TV shows are 1 and
    above. *)
Theorem progress_fraction_exceeds_one :
  progress_fractions
    (trace (build_content_database three_pages
              (StreamingDataFetcher_init "k1" "k2") 1 (Some quiet)
              empty_directory).2)
  = [0 # 6; 1 # 6; 2 # 6; 3 # 6; 4 # 6; 5 # 6;
     6 # 6; 7 # 6; 8 # 6; 9 # 6; 10 # 6; 11 # 6]%Q
  ∧ Exists (λ q, (1 < q)%Q)
      (progress_fractions
         (trace (build_content_database three_pages
                   (StreamingDataFetcher_init "k1" "k2") 1 (Some quiet)
                   empty_directory).2)).
Proof.
  assert (progress_fractions
            (trace (build_content_database three_pages
                      (StreamingDataFetcher_init "k1" "k2") 1 (Some quiet)
                      empty_directory).2)
          = [0 # 6; 1 # 6; 2 # 6; 3 # 6; 4 # 6; 5 # 6;
             6 # 6; 7 # 6; 8 # 6; 9 # 6; 10 # 6; 11 # 6]%Q) as ->
    by (vm_compute; reflexivity).
  split; [reflexivity |].
  do 7 apply Exists_cons_tl. apply Exists_cons_hd. reflexivity.
Qed.

(** * Further properties of the fetcher *)

(** ** The pages a combination asks for *)

(** Whatever [total_pages] the service reports, the page loop runs over
    [1..n] for an [n] that does not exceed [max_pages]. *)
Lemma pages_of_min reported max_pages total_pages pages :
  py_min reported max_pages = Returns total_pages →
  py_range_from_1 total_pages = Returns pages →
  ∃ n, pages = seqZ 1 n ∧ n ≤ max_pages.
Proof.
  intros Hmin Hrange.
  destruct reported as [|b|z|f| | |]; simpl in Hmin; try discriminate.
  - destruct (Z.ltb_spec max_pages (Z.b2z b)); simplify_eq/=;
      eexists; split; try reflexivity; lia.
  - destruct (Z.ltb_spec max_pages z); simplify_eq/=;
      eexists; split; try reflexivity; lia.
  - destruct (Z_lt_float max_pages f); simplify_eq/=.
    eexists; split; [reflexivity | lia].
Qed.

Lemma discover_pages_app evs1 evs2 :
  discover_pages (evs1 ++ evs2) = discover_pages evs1 ++ discover_pages evs2.
Proof. apply omap_app. Qed.

Lemma discovers_trans l1 l2 s1 s2 s3 :
  discovers l1 s1 s2 → discovers l2 s2 s3 → discovers (l1 ++ l2) s1 s3.
Proof.
  intros (evs1 & Ht1 & Hl1) (evs2 & Ht2 & Hl2). exists (evs1 ++ evs2).
  split; [by rewrite Ht2, Ht1, app_assoc |].
  by rewrite discover_pages_app, Hl1, Hl2.
Qed.

Lemma trace_grows_discovers_none s s' :
  trace_grows (λ ev, is_discover ev = false) s s' → discovers [] s s'.
Proof.
  intros (evs & Ht & Hall). exists evs. split; [done |]. clear Ht.
  induction Hall as [|ev evs Hev Hall IH]; [done |].
  destruct ev as [[]| | |]; simpl in *; done.
Qed.

(** Leaves that log at most one event, which is no discover request. *)
Ltac prim_no_discover :=
  prim;
  first [ by (exists []; rewrite app_nil_r)
        | by (eexists [_]; split; [reflexivity |];
              apply Forall_singleton) ].

Lemma item_body_no_discover E self ct pn item :
  respects (trace_grows (λ ev, is_discover ev = false))
    (item_body E self ct pn item).
Proof. unfold item_body, item_try. walk prim_no_discover. Qed.

Lemma bind_run {A B} (m : M A) (f : A → M B) s :
  (m ≫= f) s
  = match m s with
    | (Returns a, s') => f a s'
    | (Raises e, s') => (Raises e, s')
    end.
Proof. reflexivity. Qed.

(** A turn of the page loop asks for its page, unless the page is the first
    or the callback has raised before. *)
Lemma page_body_discovers E self cb ct pid pn idx total initial_data
    total_pages page s :
  let run := page_body E self cb ct pid pn idx total initial_data total_pages
               page s in
  discovers (if 1 <? page then [page] else []) s run.2
  ∨ (returned run.1 = false ∧ discovers [] s run.2).
Proof.
  simpl. unfold page_body. rewrite bind_run.
  set (progress := match cb with Some _ => _ | None => _ end).
  assert (respects (trace_grows (λ ev, is_discover ev = false)) progress)
    as Hprogress by (unfold progress; walk prim_no_discover).
  specialize (Hprogress s). apply trace_grows_discovers_none in Hprogress.
  destruct (progress s) as [[[]|e] s1]; simpl in *; [| by right].
  left. rewrite bind_run.
  set (rest := λ data : json,
         results ← lift (py_get data "results" (JArr []));
         items ← lift (py_iter results);
         for_each items (item_body E self ct pn) ;; time_sleep 1).
  assert (∀ data, respects (trace_grows (λ ev, is_discover ev = false))
                    (rest data)) as Hrest.
  { intros data. unfold rest.
    walk ltac:(first [apply item_body_no_discover | prim_no_discover]). }
  destruct (1 <? page).
  - unfold get_streaming_content, requests_get_json.
    set (s2 := {| trace := trace s1 ++ [EGet _]; files := files s1;
                  all_content := all_content s1 |}).
    assert (discovers [page] s1 s2) as Hget by by eexists [_].
    destruct (http_get E (trace s1) _) as [data|e]; simpl.
    + specialize (Hrest data s2). apply trace_grows_discovers_none in Hrest.
      apply (discovers_trans [] [page] s s1 (rest data s2).2); [done |].
      apply (discovers_trans [page] [] s1 s2); done.
    + by apply (discovers_trans [] [page] s s1 s2).
  - unfold mret, M_ret.
    specialize (Hrest initial_data s1).
    apply trace_grows_discovers_none in Hrest.
    by apply (discovers_trans [] [] s s1).
Qed.

(** Over the pages [a, a+1, ...] beyond the first, the loop asks for an
    initial segment of them, in order. *)
Lemma for_each_pages_discovers E self cb ct pid pn idx total initial_data
    total_pages (n : nat) :
  ∀ a s, 1 < a →
    ∃ j, 0 ≤ j ≤ Z.of_nat n
         ∧ discovers (seqZ a j) s
             (for_each (seqZ a (Z.of_nat n))
                (page_body E self cb ct pid pn idx total initial_data
                   total_pages) s).2.
Proof.
  induction n as [|n IH]; intros a s Ha.
  - exists 0. split; [lia |]. simpl. exists []. by rewrite app_nil_r.
  - rewrite seqZ_cons by lia.
    replace (Z.pred (Z.of_nat (S n))) with (Z.of_nat n) by lia.
    simpl. unfold mbind, M_bind.
    pose proof (page_body_discovers E self cb ct pid pn idx total initial_data
                  total_pages a s) as Hpage.
    simpl in Hpage. destruct (Z.ltb_spec 1 a); [| lia].
    destruct (page_body E self cb ct pid pn idx total initial_data total_pages
                a s) as [[[]|e] s1]; simpl in *.
    + destruct Hpage as [Hpage | [? _]]; [| done].
      destruct (IH (Z.succ a) s1) as (j & Hj & Hrest); [lia |].
      exists (Z.succ j). split; [lia |].
      rewrite (seqZ_cons a (Z.succ j)) by lia.
      replace (Z.pred (Z.succ j)) with j by lia.
      by apply (discovers_trans [a] (seqZ (Z.succ a) j) s s1).
    + destruct Hpage as [Hpage | [_ Hpage]].
      * exists 1. split; [lia | done].
      * exists 0. split; [lia | done].
Qed.

Lemma combination_try_discovers E self max_pages cb ct pid pn idx total s :
  ∃ k, 1 ≤ k ≤ Z.max 1 max_pages
       ∧ discovers (seqZ 1 k) s
           (combination_try E self max_pages cb ct pid pn idx total s).2.
Proof.
  unfold combination_try. rewrite bind_run.
  unfold get_streaming_content, requests_get_json.
  set (s0 := {| trace := trace s ++ [EGet _]; files := files s;
                all_content := all_content s |}).
  assert (discovers (seqZ 1 1) s s0) as Hfirst by by eexists [_].
  assert (∃ k, 1 ≤ k ≤ Z.max 1 max_pages ∧ discovers (seqZ 1 k) s s0)
    as Hstop by (exists 1; split; [lia | done]).
  destruct (http_get E (trace s) _) as [data|e]; [| done].
  rewrite bind_run. unfold lift at 1.
  destruct (py_get data "total_pages" (JInt 1)) as [reported|e]; [| done].
  rewrite bind_run. unfold lift at 1.
  destruct (py_min reported max_pages) as [total_pages|e] eqn:Hmin; [| done].
  rewrite bind_run. unfold lift at 1.
  destruct (py_range_from_1 total_pages) as [pages|e] eqn:Hrange; [| done].
  destruct (pages_of_min _ _ _ _ Hmin Hrange) as (n & -> & Hn).
  destruct (Z.le_gt_cases n 0) as [Hle | Hgt].
  { rewrite seqZ_nil by done. done. }
  rewrite seqZ_cons by lia. simpl. rewrite bind_run.
  pose proof (page_body_discovers E self cb ct pid pn idx total data
                total_pages 1 s0) as Hpage.
  simpl in Hpage.
  assert (discovers []
            s0 (page_body E self cb ct pid pn idx total data total_pages 1
                  s0).2) as Hpage1 by (destruct Hpage as [? | [_ ?]]; done).
  clear Hpage.
  destruct (page_body E self cb ct pid pn idx total data total_pages 1 s0)
    as [[[]|e] s1]; simpl in *.
  - replace (Z.pred n) with (Z.of_nat (Z.to_nat (Z.pred n))) by lia.
    destruct (for_each_pages_discovers E self cb ct pid pn idx total data
                total_pages (Z.to_nat (Z.pred n)) 2 s1)
      as (j & Hj & Hrest); [lia |].
    exists (Z.succ j). split; [lia |].
    rewrite (seqZ_cons 1 (Z.succ j)) by lia.
    replace (Z.pred (Z.succ j)) with j by lia.
    apply (discovers_trans [1] (seqZ 2 j) s s0); [done |].
    by apply (discovers_trans [] (seqZ 2 j) s0 s1).
  - exists 1. split; [lia |].
    by apply (discovers_trans [1] [] s s0).
Qed.

(** X2: The discover requests of one combination ask for the pages 1, 2, ...,
    [k] in this order, each once, with [k] at most [max_pages] (and 1 for
    the first request, which is always sent). *)
Theorem combination_body_discover_pages
    E self max_pages cb total ct idx provider s :
  ∃ k, 1 ≤ k ≤ Z.max 1 max_pages
       ∧ discover_pages
           (new_events s
              (combination_body E self max_pages cb total ct idx provider s).2)
         = seqZ 1 k.
Proof.
  destruct (combination_try_discovers E self max_pages cb ct provider.1
              provider.2 (idx + 1) total s) as (k & Hk & evs & Htrace & Hpages).
  exists k. split; [done |].
  unfold combination_body, new_events. rewrite bind_run. unfold try_except.
  destruct (combination_try E self max_pages cb ct provider.1 provider.2
              (idx + 1) total s) as [[[]|e] s1]; simpl in *.
  - by rewrite Htrace, drop_app_length.
  - rewrite Htrace, <- app_assoc, drop_app_length, discover_pages_app, Hpages.
    simpl. by rewrite app_nil_r.
Qed.

(** ** Runs that collect nothing *)

Global Instance idle_preorder : PreOrder idle.
Proof.
  split.
  - intros s. split; [done |]. exists []. by rewrite app_nil_r.
  - intros s1 s2 s3 [Hr1 (evs1 & Ht1 & Hp1)] [Hr2 (evs2 & Ht2 & Hp2)].
    split; [congruence |]. exists (evs1 ++ evs2).
    split; [by rewrite Ht2, Ht1, app_assoc |].
    unfold progress_fractions in *. by rewrite omap_app, Hp1, Hp2.
Qed.








(** ** A progress bar that refuses fractions above 1 *)


Lemma combination_body_value E self max_pages cb total ct idx provider s :
  (combination_body E self max_pages cb total ct idx provider s).1
  = Returns (idx + 1).
Proof.
  unfold combination_body. rewrite bind_run.
  destruct (returns_try_except
              (combination_try E self max_pages cb ct provider.1 provider.2
                 (idx + 1) total)
              (λ e, print ("Error processing " +:+ provider.2 +:+ " " +:+ ct
                             +:+ ": ") e)
              (λ e, returns_emit _) s) as ([] & s1 & ->).
  reflexivity.
Qed.



Lemma providers_loop_value E self max_pages cb total ct ps :
  ∀ idx s,
    (for_each_with ps idx (combination_body E self max_pages cb total ct) s).1
    = Returns (idx + Z.of_nat (length ps)).
Proof.
  induction ps as [|p ps IH]; intros idx s.
  - simpl. unfold mret, M_ret. simpl. f_equal. lia.
  - simpl. rewrite bind_run.
    pose proof (combination_body_value E self max_pages cb total ct idx p s)
      as Hvalue.
    destruct (combination_body E self max_pages cb total ct idx p s)
      as [[v|e] s1]; simpl in *; [| done].
    injection Hvalue as ->. rewrite IH. f_equal. lia.
Qed.

Lemma for_each_with_cons {A V} (x : A) (l : list A) (v : V)
    (body : V → A → M V) :
  for_each_with (x :: l) v body
  = (body v x ≫= λ v', for_each_with l v' body).
Proof. reflexivity. Qed.




(** ** The layout and the content of a row *)

(** What the body of the inner [try] has done when it returns. *)
Lemma item_try_appends E self ct pn item s s' :
  item_try E self ct pn item s = (Returns (), s') →
  ∃ kv row,
    item = JObj kv
    ∧ is_Some (assoc_get "id" kv)
    ∧ all_content s' = all_content s ++ [row]
    ∧ copied_from ct kv row
    ∧ row_layout row.
Proof.
  intros Hrun.
  unfold item_try, mbind, M_bind, lift, get_content_details,
    get_external_ids, get_imdb_data, requests_get_json, all_content_append,
    mret, M_ret in Hrun.
  destruct item as [| | | | | |kv]; try discriminate.
  exists kv. simpl in Hrun.
  destruct (assoc_get "id" kv) as [tmdb_id|] eqn:Hid; [| discriminate].
  repeat case_match; simplify_eq/=.
  all: eexists; split; [reflexivity |]; split; [by eexists |];
         split; [reflexivity |].
  all: unfold copied_from, row_layout; rewrite Hid;
         match goal with
         | H : (_ =? "tv")%string = _ |- _ => rewrite H
         end; simpl; eauto 15.
Qed.

(** X6: The fields of a row that come from the discover entry are copied as
    they are, a missing one as [None]; a TV show takes [name] and
    [first_air_date] where a movie takes [title] and [release_date]. *)
Theorem item_try_copies_entry E self ct pn item s s' :
  item_try E self ct pn item s = (Returns (), s') →
  ∃ kv row,
    item = JObj kv
    ∧ all_content s' = all_content s ++ [row]
    ∧ copied_from ct kv row.
Proof.
  intros Hrun.
  destruct (item_try_appends E self ct pn item s s' Hrun)
    as (kv & row & -> & _ & Hrows & Hcopied & _).
  by exists kv, row.
Qed.

Lemma item_try_copies_entry_tv :
  ∃ kv row,
    JObj [("id", JInt 1399); ("name", JStr "Game of Thrones");
          ("title", JStr "ignored"); ("first_air_date", JStr "2011-04-17")]
    = JObj kv
    ∧ all_content
        (item_try one_entry (StreamingDataFetcher_init "k1" "k2") "tv" "HBO Max"
           (JObj [("id", JInt 1399); ("name", JStr "Game of Thrones");
                  ("title", JStr "ignored");
                  ("first_air_date", JStr "2011-04-17")])
           empty_directory).2
      = all_content empty_directory ++ [row]
    ∧ copied_from "tv" kv row.
Proof.
  apply (item_try_copies_entry one_entry (StreamingDataFetcher_init "k1" "k2")
           "tv" "HBO Max" _ empty_directory).
  reflexivity.
Defined.

Lemma item_try_rows_grow E self ct pn item (P : dict → Prop) :
  (∀ s s', item_try E self ct pn item s = (Returns (), s') →
           ∃ row, all_content s' = all_content s ++ [row] ∧ P row) →
  respects (rows_grow P) (item_try E self ct pn item).
Proof.
  intros Hreturns s.
  destruct (item_try E self ct pn item s) as [[[]|e] s'] eqn:Hrun; simpl.
  - destruct (Hreturns s s' Hrun) as (row & Hrows & HP).
    exists [row]. split; [done | by constructor].
  - exists []. rewrite app_nil_r. split; [| constructor].
    by apply (item_try_on_raise E self ct pn item s e s').
Qed.

(** Every row the loops collect has the layout of [row_layout]. *)
Lemma aggregate_row_layout E self max_pages cb :
  respects (rows_grow row_layout) (aggregate E self max_pages cb).
Proof.
  unfold aggregate, combination_body, combination_try, page_body, item_body.
  walk ltac:(first
    [ apply item_try_rows_grow; intros s1 s2 Hrun;
      destruct (item_try_appends _ _ _ _ _ _ _ Hrun)
        as (kv & row & _ & _ & Hrows & _ & Hlayout);
      by exists row
    | prim_rows ]).
Qed.

Lemma has_key_keys (k : string) (row : dict) :
  has_key k row = existsb (String.eqb k) row.*1.
Proof.
  unfold has_key. induction row as [|[k' v] row IH]; simpl; [done |].
  rewrite (String.eqb_sym k k'). by destruct (String.eqb k' k).
Qed.

(** With the layout of [row_layout], the keys of a row are decided by
    whether it has genres. *)
Lemma row_layout_keys row :
  row_layout row →
  row.*1 = if has_key "genres" row
           then base_keys ++ ["genres"; "imdb_rating"; "imdb_votes"]
           else base_keys ++ ["imdb_rating"; "imdb_votes"].
Proof.
  intros [[Hkeys | Hkeys] _]; by rewrite has_key_keys, Hkeys.
Qed.

(** Once a row with genres has been seen, the columns stay as they are;
    before that, the first row with genres puts [genres] last. *)
Lemma DataFrame_columns_rest rest :
  Forall row_layout rest →
  foldl (λ seen row, add_unseen seen row.*1)
    (base_keys ++ ["genres"; "imdb_rating"; "imdb_votes"]) rest
  = base_keys ++ ["genres"; "imdb_rating"; "imdb_votes"]
  ∧ foldl (λ seen row, add_unseen seen row.*1)
      (base_keys ++ ["imdb_rating"; "imdb_votes"; "genres"]) rest
    = base_keys ++ ["imdb_rating"; "imdb_votes"; "genres"]
  ∧ foldl (λ seen row, add_unseen seen row.*1)
      (base_keys ++ ["imdb_rating"; "imdb_votes"]) rest
    = if existsb (has_key "genres") rest
      then base_keys ++ ["imdb_rating"; "imdb_votes"; "genres"]
      else base_keys ++ ["imdb_rating"; "imdb_votes"].
Proof.
  induction 1 as [|row rest Hrow _ (IH1 & IH2 & IH3)]; [done |].
  cbn [foldl existsb]. rewrite (row_layout_keys row Hrow).
  destruct (has_key "genres" row); simpl orb; cbv iota.
  - repeat split.
    + etransitivity; [| exact IH1]. f_equal.
    + etransitivity; [| exact IH2]. f_equal.
    + etransitivity; [| exact IH2]. f_equal.
  - repeat split.
    + etransitivity; [| exact IH1]. f_equal.
    + etransitivity; [| exact IH2]. f_equal.
    + etransitivity; [| exact IH3]. f_equal.
Qed.

Lemma DataFrame_columns_layout df :
  Forall row_layout df → DataFrame_columns df = catalogue_columns df.
Proof.
  destruct 1 as [|first rest Hfirst Hrest]; [done |].
  unfold DataFrame_columns, catalogue_columns. cbn [foldl].
  destruct (DataFrame_columns_rest rest Hrest) as (H1 & _ & H3).
  rewrite (row_layout_keys first Hfirst).
  destruct (has_key "genres" first).
  - etransitivity; [| exact H1]. f_equal.
  - etransitivity; [| exact H3]. f_equal.
Qed.

(** X7: The columns of the table.  A table without rows has no column.
    Otherwise the columns are the ten keys of the dict literal and the two
    rating fields, with [genres] before the rating fields when the first row
    has genres, behind them when a later row is the first to have them, and
    absent when no row has them.  [genres] is the only column whose key a
    row's dict can lack, so that pandas fills the cell with the missing
    value: the key of every other column is in every row's dict, whatever
    its value. *)
Theorem build_content_database_columns E self max_pages cb s :
  ∃ df,
    (build_content_database E self max_pages cb s).1
      = Returns (df, snapshot_name E)
    ∧ DataFrame_columns df = catalogue_columns df
    ∧ Forall (λ row, ∀ column, column ∈ DataFrame_columns df →
                column ≠ "genres" → has_key column row = true) df.
Proof.
  rewrite build_content_database_run. simpl. eexists. split; [done |].
  destruct (aggregate_row_layout E self max_pages cb
              {| trace := trace s; files := files s; all_content := [] |})
    as (block & Hblock & Hall).
  unfold after_aggregate. simpl in Hblock. rewrite Hblock.
  split; [by apply DataFrame_columns_layout |].
  rewrite (DataFrame_columns_layout block Hall).
  apply Forall_forall. intros row Hrow column Hcolumn Hother.
  assert (row_layout row) as Hlayout
    by (by eapply Forall_forall in Hall).
  pose proof (row_layout_keys row Hlayout) as Hkeys.
  rewrite has_key_keys, Hkeys.
  destruct block as [|first rest]; [by apply elem_of_nil in Hrow |].
  unfold catalogue_columns, base_keys in Hcolumn.
  destruct (has_key "genres" first), (existsb (has_key "genres") rest),
    (has_key "genres" row); simpl in Hcolumn;
    repeat (apply elem_of_cons in Hcolumn as [-> | Hcolumn]);
    first [ reflexivity | done | by apply elem_of_nil in Hcolumn ].
Qed.

Lemma genres_later_rows :
  ∃ first second,
    (build_content_database genres_later (StreamingDataFetcher_init "k1" "k2")
       1 None empty_directory).1
    = Returns ([first; second], snapshot_name genres_later)
    ∧ has_key "genres" first = false
    ∧ has_key "genres" second = true.
Proof. eexists _, _. vm_compute. by repeat split. Qed.

Lemma build_content_database_columns_genres_later :
  ∃ df,
    (build_content_database genres_later (StreamingDataFetcher_init "k1" "k2")
       1 None empty_directory).1
    = Returns (df, snapshot_name genres_later)
    ∧ length df = 2%nat
    ∧ DataFrame_columns df
      = base_keys ++ ["imdb_rating"; "imdb_votes"; "genres"].
Proof.
  destruct (build_content_database_columns genres_later
              (StreamingDataFetcher_init "k1" "k2") 1 None empty_directory)
    as (df & Hrun & Hcolumns & _).
  destruct genres_later_rows as (first & second & Hrows & Hfirst & Hsecond).
  rewrite Hrows in Hrun. injection Hrun as <-.
  exists [first; second]. split; [exact Hrows |]. split; [reflexivity |].
  rewrite Hcolumns. unfold catalogue_columns. cbn [existsb].
  by rewrite Hfirst, Hsecond.
Defined.

(** ** What a row costs *)

Lemma count_app f evs1 evs2 :
  count f (evs1 ++ evs2) = (count f evs1 + count f evs2)%nat.
Proof. unfold count. by rewrite List.filter_app, length_app. Qed.

Global Instance paid_for_preorder : PreOrder paid_for.
Proof.
  split.
  - intros s. exists [], []. rewrite !app_nil_r. simpl.
    repeat split; lia.
  - intros s1 s2 s3 (b1 & evs1 & Hr1 & Ht1 & ? & ? & ?)
                    (b2 & evs2 & Hr2 & Ht2 & ? & ? & ?).
    exists (b1 ++ b2), (evs1 ++ evs2).
    rewrite Hr2, Hr1, Ht2, Ht1, !app_assoc, length_app, !count_app.
    repeat split; lia.
Qed.

(** A returning run of the inner [try] has sent the detail request and the
    external-id request. *)
Lemma item_try_requests E self ct pn item s s' :
  item_try E self ct pn item s = (Returns (), s') →
  ∃ evs, trace s' = trace s ++ evs
         ∧ (1 ≤ count is_details evs)%nat
         ∧ (1 ≤ count is_external_ids evs)%nat.
Proof.
  intros Hrun.
  unfold item_try, mbind, M_bind, lift, get_content_details,
    get_external_ids, get_imdb_data, requests_get_json, all_content_append,
    mret, M_ret in Hrun.
  destruct item as [| | | | | |kv]; try discriminate.
  simpl in Hrun.
  destruct (assoc_get "id" kv) as [tmdb_id|]; [| discriminate].
  repeat case_match; simplify_eq/=.
  all: first [ eexists [_; _; _]; split; [by rewrite <- !app_assoc |]
             | eexists [_; _]; split; [by rewrite <- !app_assoc |] ].
  all: unfold count; simpl; lia.
Qed.

Lemma item_body_paid_for E self ct pn item :
  respects paid_for (item_body E self ct pn item).
Proof.
  intros s. unfold item_body, try_except, print, time_sleep, emit.
  rewrite bind_run.
  assert (respects (trace_grows (λ _, True)) (item_try E self ct pn item))
    as Htrace by (unfold item_try; walk prim_trace).
  destruct (Htrace s) as (evs0 & Hevs0 & _).
  destruct (item_try E self ct pn item s) as [[[]|e] s1] eqn:Hrun; simpl in *.
  - destruct (item_try_appends E self ct pn item s s1 Hrun)
      as (kv & row & _ & _ & Hrows & _).
    destruct (item_try_requests E self ct pn item s s1 Hrun)
      as (evs & Hevs & Hdetails & Hext).
    exists [row], (evs ++ [ESleep (1 # 2)]).
    rewrite Hevs, Hrows, <- app_assoc, !count_app. simpl.
    repeat split; try lia. unfold count at 2. simpl. lia.
  - exists [], (evs0 ++ [EPrint "Error processing item: " e; ESleep (1 # 2)]).
    rewrite Hevs0, (item_try_on_raise E self ct pn item s e s1 Hrun).
    rewrite app_nil_r, <- !app_assoc. simpl. repeat split; lia.
Qed.

(** Leaves that append no row. *)
Ltac prim_paid :=
  prim;
  first [ by (exists [], []; rewrite !app_nil_r; simpl; repeat split; lia)
        | by (eexists [], [_]; rewrite !app_nil_r; simpl;
              repeat split; try lia; reflexivity) ].

(** X8: Every row of the table has been paid for: the run has sent at least as
    many detail requests and external-id requests, and has paused for half a
    second at least as often, as the table has rows. *)
Theorem build_content_database_row_cost E self max_pages cb s :
  ∃ df,
    (build_content_database E self max_pages cb s).1
      = Returns (df, snapshot_name E)
    ∧ let evs := new_events s
                   (build_content_database E self max_pages cb s).2 in
      (length df ≤ count is_details evs)%nat
      ∧ (length df ≤ count is_external_ids evs)%nat
      ∧ (length df ≤ count is_item_sleep evs)%nat.
Proof.
  rewrite build_content_database_run. simpl. eexists. split; [done |].
  assert (respects paid_for (aggregate E self max_pages cb)) as Hagg.
  { unfold aggregate, combination_body, combination_try, page_body.
    walk ltac:(first [apply item_body_paid_for | prim_paid]). }
  destruct (Hagg {| trace := trace s; files := files s; all_content := [] |})
    as (block & evs & Hrows & Htrace & Hcost).
  unfold after_aggregate, new_events. simpl in *.
  by rewrite Hrows, Htrace, drop_app_length.
Qed.

(** * Snapshots on disk *)





(** The rebuild that collects nothing writes a table without columns, and
    the load that follows raises on it. *)
Lemma rebuild_of_nothing_is_not_loaded :
  ∃ s1,
    build_content_database offline_on_disk (StreamingDataFetcher_init "k1" "k2")
      2 None empty_directory
    = (Returns ([], snapshot_name offline_on_disk), s1)
    ∧ files s1 !! snapshot_name offline_on_disk = Some newline
    ∧ load_or_create_database offline_on_disk "k1" "k2" false 2 None s1
      = (Raises EmptyDataError, s1).
Proof. eexists. vm_compute. by repeat split. Qed.

(** ** Names and timestamps *)

Lemma ascii_compare_refl c : Ascii.compare c c = Eq.
Proof. unfold Ascii.compare. apply N.compare_refl. Qed.

Lemma string_compare_refl s : String.compare s s = Eq.
Proof.
  induction s as [|c s IH]; simpl; [done |].
  by rewrite ascii_compare_refl.
Qed.

Lemma string_compare_app_l p a b :
  String.compare (p +:+ a) (p +:+ b) = String.compare a b.
Proof.
  induction p as [|c p IH]; [done |].
  rewrite !string_app_cons. simpl. by rewrite ascii_compare_refl.
Qed.

Lemma string_compare_app_r a b s :
  String.length a = String.length b →
  String.compare (a +:+ s) (b +:+ s) = String.compare a b.
Proof.
  revert b. induction a as [|c a IH]; intros [|d b] Hlen; try discriminate.
  - simpl. apply string_compare_refl.
  - rewrite !string_app_cons. simpl.
    destruct (Ascii.compare c d); [| done | done].
    apply IH. simpl in Hlen. lia.
Qed.

(** Between timestamps of one width, the order of the snapshot names is the
    order of the timestamps. *)
Lemma snapshot_name_of_le t1 t2 :
  String.length t1 = String.length t2 →
  String.le (snapshot_name_of t1) (snapshot_name_of t2) ↔ String.le t1 t2.
Proof.
  intros Hlen. unfold String.le, String.leb, snapshot_name_of.
  by rewrite string_compare_app_l, string_compare_app_r.
Qed.

(** X10: When the snapshots of the directory carry timestamps of one width, the
    load without [force_refresh] reads the snapshot with the greatest
    timestamp. *)
Theorem load_or_create_database_greatest_timestamp
    E tmdb_key omdb_key max_pages cb s width :
  csv_files s ≠ [] →
  (∀ f, f ∈ csv_files s →
        ∃ t, f = snapshot_name_of t ∧ String.length t = width) →
  ∃ t text,
    files s !! snapshot_name_of t = Some text
    ∧ (∀ t', is_Some (files s !! snapshot_name_of t') →
             String.length t' = width → String.le t' t)
    ∧ load_or_create_database E tmdb_key omdb_key false max_pages cb s
      = (outcome_map (λ table, (table, snapshot_name_of t)) (read_csv E text),
         s).
Proof.
  intros Hne Hwidth.
  destruct (load_or_create_database_load E tmdb_key omdb_key max_pages cb s Hne)
    as (latest & text & Htext & Hname & Hmax & Hrun).
  destruct (Hwidth latest) as (t & -> & Ht).
  { apply elem_of_csv_files. split; [by eexists | done]. }
  exists t, text. split; [done |]. split; [| done].
  intros t' Hfile Ht'.
  apply snapshot_name_of_le; [congruence |].
  apply Hmax; [done |].
  apply is_snapshot_name_spec. unfold snapshot_name_of. split.
  - by eexists.
  - exists ("streaming_content_" +:+ t'). by rewrite string_app_assoc.
Qed.

Lemma csv_files_two_snapshots :
  csv_files two_snapshots_directory
  = ["streaming_content_20240101_010101.csv";
     "streaming_content_20240601_000000.csv"].
Proof. vm_compute. reflexivity. Qed.

Lemma load_or_create_database_greatest_timestamp_two_snapshots :
  ∃ t text,
    files two_snapshots_directory !! snapshot_name_of t = Some text
    ∧ (∀ t', is_Some (files two_snapshots_directory !! snapshot_name_of t') →
             String.length t' = 15%nat → String.le t' t)
    ∧ load_or_create_database offline "k1" "k2" false 2 None
        two_snapshots_directory
      = (outcome_map (λ table, (table, snapshot_name_of t))
           (read_csv offline text),
         two_snapshots_directory).
Proof.
  apply (load_or_create_database_greatest_timestamp offline "k1" "k2" 2 None
           two_snapshots_directory 15).
  - rewrite csv_files_two_snapshots. discriminate.
  - intros f Hf. rewrite csv_files_two_snapshots in Hf.
    apply elem_of_cons in Hf as [-> | Hf];
      [exists "20240101_010101"; split; reflexivity |].
    apply elem_of_cons in Hf as [-> | Hf];
      [exists "20240601_000000"; split; reflexivity |].
    by apply elem_of_nil in Hf.
Defined.

(** ** The copy of the selection in [app.py] *)

Lemma find_latest_database_run E tmdb_key omdb_key max_pages cb s :
  (csv_files s = [] ∧ find_latest_database s = (Returns None, s))
  ∨ (∃ latest text,
       find_latest_database s = (Returns (Some latest), s)
       ∧ files s !! latest = Some text
       ∧ is_snapshot_name latest = true
       ∧ (∀ f, is_Some (files s !! f) → is_snapshot_name f = true →
               String.le f latest)
       ∧ load_or_create_database E tmdb_key omdb_key false max_pages cb s
         = (outcome_map (λ table, (table, latest)) (read_csv E text), s)).
Proof.
  destruct (csv_files s) as [|f0 l] eqn:Hfiles.
  - left. split; [done |].
    unfold find_latest_database, os_listdir. rewrite bind_run.
    fold (csv_files s). by rewrite Hfiles.
  - right.
    assert (csv_files s ≠ []) as Hne by by rewrite Hfiles.
    destruct (py_last_sorted (csv_files s) Hne)
      as (latest & Hlast & Hin & Hgreatest).
    destruct (load_or_create_database_load E tmdb_key omdb_key max_pages cb s
                Hne) as (latest' & text & Htext & Hname & Hmax & Hrun).
    assert (latest = latest') as ->.
    { apply elem_of_csv_files in Hin as [Hfile Hsnapshot].
      apply (anti_symm String.le); [by apply Hmax |].
      apply Hgreatest, elem_of_csv_files. split; [by eexists | done]. }
    rename Hlast into Hlast'.
    exists latest', text. split; [| done].
    unfold find_latest_database, os_listdir. rewrite bind_run.
    fold (csv_files s). rewrite Hfiles. rewrite <- Hfiles.
    rewrite bind_run. unfold lift. by rewrite Hlast'.
Qed.

(** X11: [find_latest_database] returns [None] exactly when the directory holds
    no snapshot name; otherwise it returns the greatest one, and this is the
    file [load_or_create_database] reads when it is not forced to rebuild.
    It changes nothing. *)
Theorem find_latest_database_agrees E tmdb_key omdb_key max_pages cb s :
  (csv_files s = [] ∧ find_latest_database s = (Returns None, s))
  ∨ (∃ latest text,
       find_latest_database s = (Returns (Some latest), s)
       ∧ files s !! latest = Some text
       ∧ is_snapshot_name latest = true
       ∧ (∀ f, is_Some (files s !! f) → is_snapshot_name f = true →
               String.le f latest)
       ∧ load_or_create_database E tmdb_key omdb_key false max_pages cb s
         = (outcome_map (λ table, (table, latest)) (read_csv E text), s)).
Proof. apply find_latest_database_run. Qed.

(** * The loading sections of the two scripts *)



Lemma is_snapshot_name_truthy f : is_snapshot_name f = true → str_truthy f = true.
Proof.
  intros Hname. apply is_snapshot_name_spec in Hname as [(t & ->) _].
  reflexivity.
Qed.

(** With a greatest snapshot in the directory, both selections find it. *)
Lemma latest_snapshot_run E tmdb_key omdb_key max_pages cb s latest text :
  latest_snapshot s latest text →
  find_latest_database s = (Returns (Some latest), s)
  ∧ load_or_create_database E tmdb_key omdb_key false max_pages cb s
    = (outcome_map (λ table, (table, latest)) (read_csv E text), s).
Proof.
  intros (Htext & Hname & Hmax).
  destruct (find_latest_database_run E tmdb_key omdb_key max_pages cb s)
    as [[Hnil _] | (latest' & text' & Hfind & Htext' & Hname' & Hmax' & Hrun)].
  - assert (latest ∈ csv_files s) as Hin
      by (apply elem_of_csv_files; split; [by eexists | done]).
    rewrite Hnil in Hin. by apply elem_of_nil in Hin.
  - assert (latest' = latest) as ->.
    { apply (anti_symm String.le); [apply Hmax | apply Hmax'];
        first [by eexists | done]. }
    by simplify_eq.
Qed.

(** The selection of [app.py] cannot raise. *)
Lemma find_latest_database_returns s :
  ∃ latest_db, find_latest_database s = (Returns latest_db, s).
Proof.
  destruct (find_latest_database_run offline "" "" 0 None s)
    as [[_ Hrun] | (latest & text & Hrun & _)]; by eexists.
Qed.

Lemma app_load_section_reuse_run E update_progress tmdb_api_key omdb_api_key
    refresh_button max_pages a latest text df :
  session_df (session a) = None ∨ refresh_button = true →
  latest_snapshot (world a) latest text →
  read_csv E text = Returns df →
  app_load_section E update_progress tmdb_api_key omdb_api_key false
    refresh_button max_pages a
  = (Rerun,
     {| world := world a;
        session := {| session_df := Some df;
                      session_filename := Some latest |};
        screen := screen a
          ++ [StSuccess (entries_message "Loaded existing database: "
                           latest df)] |}).
Proof.
  intros Hruns Hlatest Hread.
  destruct (latest_snapshot_run E "" "" 0 None (world a) latest text Hlatest)
    as [Hfind _].
  destruct Hlatest as (Htext & Hname & _).
  unfold app_load_section.
  assert (negb (bool_decide (is_Some (session_df (session a))))
          || refresh_button = true) as ->.
  { destruct Hruns as [-> | ->]; [done | apply orb_true_r]. }
  rewrite Hfind. unfold app_try_load.
  rewrite (is_snapshot_name_truthy latest Hname). simpl.
  unfold pd_read_csv. rewrite Htext, Hread. simpl.
  by rewrite (is_snapshot_name_truthy latest Hname).
Qed.

(** X12: In [app.py] a loadable snapshot is reused without looking at the keys:
    when no rebuild is forced and the greatest snapshot can be read, the
    section stores its table and name in the session, reports the load and
    asks for a rerun, and the world is as before: no request was sent and
    nothing was written. *)
Theorem app_load_section_reuses E update_progress tmdb_api_key omdb_api_key
    refresh_button max_pages a latest text df :
  session_df (session a) = None ∨ refresh_button = true →
  latest_snapshot (world a) latest text →
  read_csv E text = Returns df →
  app_load_section E update_progress tmdb_api_key omdb_api_key false
    refresh_button max_pages a
  = (Rerun,
     {| world := world a;
        session := {| session_df := Some df;
                      session_filename := Some latest |};
        screen := screen a
          ++ [StSuccess (entries_message "Loaded existing database: "
                           latest df)] |}).
Proof. apply app_load_section_reuse_run. Qed.

Lemma two_snapshots_latest :
  latest_snapshot two_snapshots_directory
    "streaming_content_20240601_000000.csv" "new".
Proof.
  split; [reflexivity |]. split; [reflexivity |].
  intros f Hfile Hname.
  assert (f ∈ csv_files two_snapshots_directory) as Hin
    by by apply elem_of_csv_files.
  rewrite csv_files_two_snapshots in Hin.
  apply elem_of_cons in Hin as [-> | Hin]; [reflexivity |].
  apply elem_of_cons in Hin as [-> | Hin]; [reflexivity |].
  by apply elem_of_nil in Hin.
Qed.

Lemma empty_snapshot_latest :
  latest_snapshot empty_snapshot_directory
    "streaming_content_20240101_010101.csv" "".
Proof.
  split; [reflexivity |]. split; [reflexivity |].
  intros f [text Hf] _.
  destruct (decide (f = "streaming_content_20240101_010101.csv")) as [->|Hne].
  - reflexivity.
  - unfold empty_snapshot_directory in Hf. simpl in Hf.
    by rewrite lookup_singleton_ne in Hf.
Qed.

Lemma app_load_section_reuses_without_keys :
  app_load_section offline quiet "" "" false false 2
    (first_run two_snapshots_directory)
  = (Rerun,
     {| world := two_snapshots_directory;
        session := {| session_df := Some [];
                      session_filename :=
                        Some "streaming_content_20240601_000000.csv" |};
        screen :=
          [StSuccess
             (entries_message "Loaded existing database: "
                "streaming_content_20240601_000000.csv" [])] |}).
Proof.
  apply (app_load_section_reuses offline quiet "" "" false 2
           (first_run two_snapshots_directory)
           "streaming_content_20240601_000000.csv" "new" []).
  - by left.
  - apply two_snapshots_latest.
  - reflexivity.
Defined.



(** X14: [app.py] without both keys sends no request and writes no file: the
    world is left as it was, and the section either stops with the warning
    (the session untouched), or asks for a rerun after reusing a loadable
    snapshot, or is skipped because the session has a table. *)
Theorem app_load_section_without_keys E update_progress tmdb_api_key
    omdb_api_key force_refresh refresh_button max_pages a :
  str_truthy tmdb_api_key = false ∨ str_truthy omdb_api_key = false →
  let run := app_load_section E update_progress tmdb_api_key omdb_api_key
               force_refresh refresh_button max_pages a in
  world run.2 = world a
  ∧ ((run.1 = Stop ∧ session run.2 = session a
      ∧ last (screen run.2) = Some (StWarning keys_warning))
     ∨ (run.1 = Rerun ∧ force_refresh = false
        ∧ ∃ latest text df,
            latest_snapshot (world a) latest text
            ∧ read_csv E text = Returns df
            ∧ session run.2 = {| session_df := Some df;
                                 session_filename := Some latest |})
     ∨ (run.1 = Continue ∧ run.2 = a)).
Proof.
  intros Hkeys.
  assert (negb (str_truthy tmdb_api_key) || negb (str_truthy omdb_api_key)
          = true) as Hguard.
  { destruct Hkeys as [-> | ->]; [done | apply orb_true_r]. }
  cbv zeta. unfold app_load_section.
  destruct (negb (bool_decide (is_Some (session_df (session a))))
            || refresh_button); [| by split; [| right; right]].
  destruct (find_latest_database_run E "" "" 0 None (world a))
    as [[Hnil ->] | (latest & text & -> & Htext & Hname & Hmax & _)].
  - simpl. unfold app_rebuild. rewrite Hguard. simpl.
    split; [done |]. left. by rewrite last_snoc.
  - unfold app_try_load. rewrite (is_snapshot_name_truthy latest Hname).
    destruct force_refresh; simpl.
    + rewrite orb_true_r. unfold app_rebuild. rewrite Hguard. simpl.
      split; [done |]. left. by rewrite last_snoc.
    + unfold pd_read_csv. rewrite Htext.
      destruct (read_csv E text) as [df|e] eqn:Hread; simpl.
      * rewrite (is_snapshot_name_truthy latest Hname). simpl.
        split; [done |]. right; left. repeat split.
        by exists latest, text, df.
      * unfold app_rebuild. rewrite Hguard. simpl.
        split; [done |]. left. by rewrite last_snoc.
Qed.

Lemma app_load_section_without_keys_empty_directory :
  let run := app_load_section offline quiet "" "k2" true false 2
               (first_run empty_directory) in
  world run.2 = world (first_run empty_directory)
  ∧ ((run.1 = Stop ∧ session run.2 = session (first_run empty_directory)
      ∧ last (screen run.2) = Some (StWarning keys_warning))
     ∨ (run.1 = Rerun ∧ true = false
        ∧ ∃ latest text df,
            latest_snapshot (world (first_run empty_directory)) latest text
            ∧ read_csv offline text = Returns df
            ∧ session run.2 = {| session_df := Some df;
                                 session_filename := Some latest |})
     ∨ (run.1 = Continue ∧ run.2 = first_run empty_directory)).
Proof.
  apply (app_load_section_without_keys offline quiet "" "k2" true false 2
           (first_run empty_directory)).
  by left.
Defined.

(** X15: The two scripts differ on a missing key: with a loadable snapshot in the
    directory and no forced refresh, [app1.py] stops with the warning and
    loads nothing, while [app.py] loads the snapshot into the session. *)
Theorem scripts_differ_without_keys E update_progress tmdb_api_key
    omdb_api_key refresh_button max_pages a latest text df :
  session_df (session a) = None ∨ refresh_button = true →
  str_truthy tmdb_api_key = false ∨ str_truthy omdb_api_key = false →
  latest_snapshot (world a) latest text →
  read_csv E text = Returns df →
  app1_load_section E update_progress tmdb_api_key omdb_api_key false
    refresh_button max_pages a
  = (Stop, show a [StWarning keys_warning])
  ∧ (app_load_section E update_progress tmdb_api_key omdb_api_key false
       refresh_button max_pages a).1 = Rerun
  ∧ session_df
      (session
         (app_load_section E update_progress tmdb_api_key omdb_api_key false
            refresh_button max_pages a).2) = Some df.
Proof.
  intros Hruns Hkeys Hlatest Hread.
  rewrite (app_load_section_reuse_run E update_progress tmdb_api_key
             omdb_api_key refresh_button max_pages a latest text df)
    by done.
  split; [| done].
  unfold app1_load_section.
  assert (negb (bool_decide (is_Some (session_df (session a))))
          || refresh_button = true) as ->.
  { destruct Hruns as [-> | ->]; [done | apply orb_true_r]. }
  by destruct Hkeys as [-> | ->]; [| rewrite orb_true_r].
Qed.

Lemma scripts_differ_without_keys_two_snapshots :
  app1_load_section offline quiet "" "" false false 2
    (first_run two_snapshots_directory)
  = (Stop, show (first_run two_snapshots_directory) [StWarning keys_warning])
  ∧ (app_load_section offline quiet "" "" false false 2
       (first_run two_snapshots_directory)).1 = Rerun
  ∧ session_df
      (session
         (app_load_section offline quiet "" "" false false 2
            (first_run two_snapshots_directory)).2) = Some [].
Proof.
  apply (scripts_differ_without_keys offline quiet "" "" false 2
           (first_run two_snapshots_directory)
           "streaming_content_20240601_000000.csv" "new" []).
  - by left.
  - by left.
  - apply two_snapshots_latest.
  - reflexivity.
Defined.

(** X16: In [app1.py] a snapshot that cannot be read ends the run: with both keys
    there, no forced refresh and a greatest snapshot that fails to load, the
    section shows the load error and stops; it does not rebuild, so no
    request is sent, no file is written and the session stays without a
    table. *)
Theorem app1_load_section_load_error E update_progress tmdb_api_key
    omdb_api_key refresh_button max_pages a latest text e :
  session_df (session a) = None ∨ refresh_button = true →
  str_truthy tmdb_api_key = true → str_truthy omdb_api_key = true →
  latest_snapshot (world a) latest text →
  read_csv E text = Raises e →
  app1_load_section E update_progress tmdb_api_key omdb_api_key false
    refresh_button max_pages a
  = (Stop,
     {| world := world a; session := session a;
        screen := screen a
          ++ [StSubheader "Loading Data..."; StProgress 0; StEmpty;
              StError "Error loading database: " e] |}).
Proof.
  intros Hruns Htmdb Homdb Hlatest Hread.
  destruct (latest_snapshot_run E tmdb_api_key omdb_api_key max_pages
              (Some update_progress) (world a) latest text Hlatest)
    as [_ Hload].
  unfold app1_load_section.
  assert (negb (bool_decide (is_Some (session_df (session a))))
          || refresh_button = true) as ->.
  { destruct Hruns as [-> | ->]; [done | apply orb_true_r]. }
  rewrite Htmdb, Homdb. simpl. rewrite Hload, Hread. simpl.
  by rewrite <- app_assoc.
Qed.

Lemma app1_load_section_load_error_empty_file :
  app1_load_section offline quiet "k1" "k2" false false 2
    (first_run empty_snapshot_directory)
  = (Stop,
     {| world := empty_snapshot_directory;
        session := {| session_df := None; session_filename := None |};
        screen :=
          [StSubheader "Loading Data..."; StProgress 0; StEmpty;
           StError "Error loading database: " EmptyDataError] |}).
Proof.
  apply (app1_load_section_load_error offline quiet "k1" "k2" false 2
           (first_run empty_snapshot_directory)
           "streaming_content_20240101_010101.csv" "" EmptyDataError).
  - by left.
  - reflexivity.
  - reflexivity.
  - apply empty_snapshot_latest.
  - reflexivity.
Defined.

(** * Genres: joined by the fetcher, split by the filter *)

Lemma prefix_cons a s1 b s2 :
  String.prefix (String a s1) (String b s2)
  = if Ascii.ascii_dec a b then String.prefix s1 s2 else false.
Proof. reflexivity. Qed.

Lemma prefix_comma_space_inside c name rest :
  String.prefix ", " (String c name) = false →
  rest = "" ∨ (∃ more, rest = ", " +:+ more) →
  String.prefix ", " (String c (name +:+ rest)) = false.
Proof.
  intros Hname Hrest. rewrite prefix_cons in *.
  destruct (Ascii.ascii_dec _ c) as [_|]; [| done].
  destruct name as [|d name].
  - destruct Hrest as [-> | (more & ->)]; reflexivity.
  - rewrite string_app_cons. rewrite prefix_cons in *.
    destruct (Ascii.ascii_dec _ d); [destruct name; discriminate | done].
Qed.

(** A piece without the separator is passed over as a whole. *)
Lemma split_go_piece name :
  ∀ piece rest,
    occurs ", " name = false →
    rest = "" ∨ (∃ more, rest = ", " +:+ more) →
    split_go ", " 0 piece (name +:+ rest)
    = split_go ", " 0 (piece +:+ name) rest.
Proof.
  induction name as [|c name IH]; intros piece rest Hname Hrest.
  - by rewrite string_app_nil_r.
  - cbn [occurs] in Hname. apply orb_false_iff in Hname as [Hhere Hlater].
    rewrite string_app_cons. cbn [split_go].
    rewrite (prefix_comma_space_inside c name rest Hhere Hrest).
    rewrite (IH _ rest Hlater Hrest).
    by rewrite string_app_assoc.
Qed.

Lemma split_go_separator piece more :
  split_go ", " 0 piece (", " +:+ more)
  = piece :: split_go ", " 0 "" more.
Proof. destruct more; reflexivity. Qed.

Lemma py_split_join names :
  names ≠ [] →
  Forall (λ name, occurs ", " name = false) names →
  ∀ joined, py_join ", " (JStr <$> names) = Returns joined →
            py_split ", " joined = names.
Proof.
  induction names as [|name names IH]; intros Hne Hnames joined Hjoin;
    [done |].
  apply Forall_cons in Hnames as [Hname Hnames].
  destruct names as [|name' names].
  - simpl in Hjoin. injection Hjoin as <-. unfold py_split.
    rewrite <- (string_app_nil_r name) at 1.
    rewrite split_go_piece by (done || by left). reflexivity.
  - change (py_join ", " (JStr <$> name :: name' :: names))
      with (match py_join ", " (JStr <$> name' :: names) with
            | Returns r => Returns (name +:+ ", " +:+ r)
            | Raises e => Raises e
            end) in Hjoin.
    destruct (py_join ", " (JStr <$> name' :: names)) as [r|e] eqn:Htail;
      [| discriminate].
    injection Hjoin as <-. unfold py_split.
    rewrite split_go_piece by (done || right; by eexists).
    rewrite split_go_separator. f_equal.
    by apply IH.
Qed.

(** X17: What the fetcher joins, the filter takes apart again: when the genre
    names are a non-empty list of strings none of which contains a comma
    followed by a space, splitting the [genres] cell gives the names back,
    and the mask selects the row exactly when one of the selected genres is
    among them. *)
Theorem genre_mask_after_join names joined selected_genres :
  names ≠ [] →
  Forall (λ name, occurs ", " name = false) names →
  py_join ", " (JStr <$> names) = Returns joined →
  py_split ", " joined = names
  ∧ (genre_mask selected_genres (Some joined) = true
     ↔ ∃ genre, genre ∈ selected_genres ∧ genre ∈ names).
Proof.
  intros Hne Hnames Hjoin.
  pose proof (py_split_join names Hne Hnames joined Hjoin) as Hsplit.
  split; [done |].
  unfold genre_mask. rewrite Hsplit, existsb_exists. split.
  - intros (genre & Hin & Hmember). exists genre.
    split; [by apply list_elem_of_In | by apply bool_decide_eq_true in Hmember].
  - intros (genre & Hin & Hmember). exists genre.
    split; [by apply list_elem_of_In | by apply bool_decide_eq_true].
Qed.

Lemma genre_mask_after_join_drama :
  py_split ", " "Drama, Sci-Fi & Fantasy" = ["Drama"; "Sci-Fi & Fantasy"]
  ∧ (genre_mask ["Family"; "Drama"] (Some "Drama, Sci-Fi & Fantasy") = true
     ↔ ∃ genre, genre ∈ ["Family"; "Drama"]
                ∧ genre ∈ ["Drama"; "Sci-Fi & Fantasy"]).
Proof.
  apply (genre_mask_after_join ["Drama"; "Sci-Fi & Fantasy"]
           "Drama, Sci-Fi & Fantasy" ["Family"; "Drama"]).
  - discriminate.
  - repeat constructor.
  - reflexivity.
Defined.

(** * Further invariants *)

(** ** The range of the progress fraction *)

Lemma truediv_in_range (a b : Z) :
  0 < b → 0 ≤ a < 2 * b →
  (0 <= inject_Z a / inject_Z b)%Q ∧ (inject_Z a / inject_Z b < 2)%Q.
Proof.
  intros Hb Hab. destruct b as [|b|b]; try lia.
  unfold Qle, Qlt, Qdiv, Qmult, Qinv, inject_Z. simpl. lia.
Qed.

Lemma page_body_fraction E self cb ct pid pn idx total initial_data
    total_pages page :
  0 < total → 0 ≤ idx - 1 < 2 * total →
  respects (trace_grows fraction_in_range)
    (page_body E self cb ct pid pn idx total initial_data total_pages page).
Proof.
  intros Htotal Hidx. unfold page_body.
  apply (respects_bind (trace_grows fraction_in_range)).
  - intros s. destruct cb as [f|]; [| by exists []; rewrite app_nil_r].
    rewrite bind_run. unfold lift, py_truediv, call_progress.
    destruct (Z.eqb_spec (total) 0) as [|_]; [lia |].
    eexists [_]. split; [by destruct (f _ _ _) |].
    apply Forall_singleton. by apply truediv_in_range.
  - intros _. unfold item_body, item_try. walk prim_trace.
Qed.

Lemma combination_body_fraction E self max_pages cb total ct idx provider :
  0 < total → 0 ≤ idx < 2 * total →
  respects (trace_grows fraction_in_range)
    (combination_body E self max_pages cb total ct idx provider).
Proof.
  intros Htotal Hidx. unfold combination_body, combination_try.
  walk ltac:(first [ apply page_body_fraction; lia | prim_trace ]).
Qed.

Lemma providers_loop_fraction E self max_pages cb total ct ps :
  0 < total →
  ∀ idx s, 0 ≤ idx → idx + Z.of_nat (length ps) ≤ 2 * total →
    trace_grows fraction_in_range s
      (for_each_with ps idx (combination_body E self max_pages cb total ct)
         s).2.
Proof.
  intros Htotal. induction ps as [|p ps IH]; intros idx s Hidx Hend.
  - reflexivity.
  - simpl in Hend. rewrite for_each_with_cons, bind_run.
    pose proof (combination_body_fraction E self max_pages cb total ct idx p
                  Htotal ltac:(lia) s) as Hstep.
    pose proof (combination_body_value E self max_pages cb total ct idx p s)
      as Hvalue.
    destruct (combination_body E self max_pages cb total ct idx p s)
      as [[v|e] s1]; simpl in *; [| done].
    injection Hvalue as ->.
    transitivity s1; [done | apply IH; lia].
Qed.

(** X18: Every fraction handed to the progress callback is at least 0 and below
    2: the counter runs over both content types while the divisor is the
    number of providers. *)
Theorem build_content_database_fraction_range E self max_pages cb s :
  Forall (λ q, (0 <= q)%Q ∧ (q < 2)%Q)
    (progress_fractions
       (new_events s (build_content_database E self max_pages cb s).2)).
Proof.
  rewrite build_content_database_run. simpl.
  unfold after_aggregate, new_events. simpl.
  set (s0 := {| trace := trace s; files := files s; all_content := [] |}).
  assert (trace_grows fraction_in_range s0
            (aggregate E self max_pages cb s0).2) as (evs & -> & Hevs).
  { unfold aggregate, content_types.
    destruct (providers self) as [|p ps] eqn:Hps.
    { reflexivity. }
    rewrite <- Hps.
    set (total := Z.of_nat (length (providers self))).
    assert (0 < total) as Htotal by (unfold total; rewrite Hps; simpl; lia).
    rewrite !for_each_with_cons. unfold mbind, M_bind.
    pose proof (providers_loop_fraction E self max_pages cb total "movie"
                  (providers self) Htotal 0 s0 ltac:(lia)
                  ltac:(unfold total; lia)) as Hmovies.
    pose proof (providers_loop_value E self max_pages cb total "movie"
                  (providers self) 0 s0) as Hvalue.
    destruct (for_each_with (providers self) 0 _ s0) as [[idx|e] s1];
      simpl in Hvalue, Hmovies; [| done].
    injection Hvalue as ->.
    cbn [for_each_with]. unfold mbind, M_bind, mret, M_ret. fold total.
    pose proof (providers_loop_fraction E self max_pages cb total "tv"
                  (providers self) Htotal (0 + total) s1 ltac:(lia)
                  ltac:(unfold total; lia)) as Htv.
    destruct (for_each_with (providers self) (0 + total) _ s1)
      as [[idx|e] s2]; simpl in *; by transitivity s1. }
  simpl. rewrite drop_app_length. clear s0.
  induction Hevs as [|ev evs Hev Hevs IH]; [constructor |].
  destruct ev as [| message q | |]; simpl; try done.
  by constructor.
Qed.

(** ** Rows without an IMDb identifier *)

Lemma item_try_unrated E self ct pn item s s' :
  item_try E self ct pn item s = (Returns (), s') →
  ∃ row, all_content s' = all_content s ++ [row] ∧ unrated_without_id row.
Proof.
  intros Hrun.
  unfold item_try, mbind, M_bind, lift, get_content_details,
    get_external_ids, get_imdb_data, requests_get_json, all_content_append,
    mret, M_ret in Hrun.
  destruct item as [| | | | | |kv]; try discriminate.
  simpl in Hrun.
  destruct (assoc_get "id" kv) as [tmdb_id|]; [| discriminate].
  repeat case_match; simplify_eq/=.
  all: eexists; split; [reflexivity |].
  all: intros imdb_id Hid Hfalsy; simpl in Hid; simplify_eq; simpl;
         first [congruence | done].
Qed.

(** X19: A row whose IMDb identifier is missing or empty has [imdb_rating] and
    [imdb_votes] at N/A, in every table the fetcher returns. *)
Theorem build_content_database_unrated E self max_pages cb s :
  ∃ df,
    (build_content_database E self max_pages cb s).1
      = Returns (df, snapshot_name E)
    ∧ Forall unrated_without_id df.
Proof.
  rewrite build_content_database_run. simpl. eexists. split; [done |].
  assert (respects (rows_grow unrated_without_id)
            (aggregate E self max_pages cb)) as Hagg.
  { unfold aggregate, combination_body, combination_try, page_body, item_body.
    walk ltac:(first
      [ apply item_try_rows_grow; intros s1 s2 Hrun;
        by apply (item_try_unrated _ _ _ _ _ _ _ Hrun)
      | prim_rows ]). }
  destruct (Hagg {| trace := trace s; files := files s; all_content := [] |})
    as (block & Hblock & Hall).
  unfold after_aggregate. simpl in Hblock. by rewrite Hblock.
Qed.
